(** * re3data API notebooks: record extraction and table assembly

    A shallow embedding of the executable cells of the notebooks

    - [examples-python/01_re3data_API_medical_research_community.ipynb]
      (module [Py01]),
    - use case 3 in Python, "Aggregating current API information"
      (module [Py03]),
    - use case 1 in R (module [R01]),
    - use case 2 in R, "distribution of certificates across repository
      types" (module [R02]),

    together with the properties of the extraction / explosion /
    deduplication steps.

    Conventions.  A parsed document is observed only through XPath
    queries, so it is represented by the function sending a query string
    to the list of its matches in document order.  Code that can raise
    (Python) or stop (R) returns a [result].  The network and the parsers
    are external collaborators: they are the fields of a [world]. *)

From Stdlib Require Import String Ascii Bool Arith PeanoNat Lia.
From Stdlib Require Import Permutation Sorted List.
Import ListNotations.
Local Open Scope string_scope.
Local Open Scope list_scope.

Set Implicit Arguments.

(** ** Errors *)

(** The exceptions (Python) and conditions (R) that the notebooks can
    meet.  None of the notebooks contains a [try] / [tryCatch]. *)
Inductive exn : Type :=
| TransportError      (* httpx: the request could not complete; httr: GET stops *)
| ParserError         (* lxml / xml2: the body is not a document *)
| IndexError          (* Python: [l[0]] on an empty list *)
| ValueError          (* pandas: cannot reindex from a duplicate axis *)
| KeyError            (* pandas: no such column *)
| RbindError.         (* R: invalid list argument: all variables should have the same length *)

Inductive result (A : Type) : Type :=
| Ok (a : A)
| Raise (e : exn).
Arguments Ok {A} a.
Arguments Raise {A} e.

Definition bind {A B} (m : result A) (k : A -> result B) : result B :=
  match m with
  | Ok a => k a
  | Raise e => Raise e
  end.

Notation "x <- m ;; k" := (bind m (fun x => k))
  (at level 61, m at next level, right associativity).

(** A [for] loop whose body can raise: the first exception leaves the
    loop, and nothing after it runs. *)
Fixpoint for_each {A S} (body : S -> A -> result S) (xs : list A) (acc : S)
  : result S :=
  match xs with
  | [] => Ok acc
  | x :: xs' => acc' <- body acc x ;; for_each body xs' acc'
  end.

Fixpoint mapM {A B} (f : A -> result B) (xs : list A) : result (list B) :=
  match xs with
  | [] => Ok []
  | x :: xs' => y <- f x ;; ys <- mapM f xs' ;; Ok (y :: ys)
  end.

(** ** Documents and the outside world *)

(** [xpath d q]: the matches of query [q] in document [d], in document
    order ([.xpath(q)] of lxml, [xml_text(xml_find_all(d, q))] of xml2). *)
Definition document : Type := string -> list string.

Definition xpath (d : document) (q : string) : list string := d q.

Record world : Type := {
  (* [client.get(url)] / [GET(url)]: the body, or a transport failure *)
  http_get : string -> result string;
  (* [html.fromstring(body)] / [read_xml(request)] *)
  parse : string -> result document;
  (* [etree.fromstring(etree.tostring(element, encoding="unicode"))] *)
  reparse : document -> result document
}.

(** Fetching and parsing one detail reference. *)
Definition fetch (w : world) (url : string) : result document :=
  body <- http_get w url ;; parse w body.

(** ** Use case 1, Python *)

Module Py01.

(** The dictionary returned by [extract_repository_info]:
    [typing.Dict[str, typing.Optional[str]]]. *)
Record info : Type := {
  re3data_id : option string;
  name : option string;
  url : option string;
  description : option string
}.

(** [l[0] if l else None] *)
Definition first_or_none (l : list string) : option string :=
  match l with
  | [] => None
  | x :: _ => Some x
  end.

Definition extract_repository_info (w : world) (xml_content : document)
  : result info :=
  repository_metadata_xml <- reparse w xml_content ;;
  let re3data_id := xpath repository_metadata_xml "//r3d:re3data.orgidentifier/text()" in
  let name := xpath repository_metadata_xml "//r3d:repositoryname/text()" in
  let url := xpath repository_metadata_xml "//r3d:repositoryurl/text()" in
  let description := xpath repository_metadata_xml "//r3d:description/text()" in
  Ok {| re3data_id := first_or_none re3data_id;
        name := first_or_none name;
        url := first_or_none url;
        description := first_or_none description |}.

(** The loop of step 5: [results.append(extract_repository_info(...))]
    for each url, then [pandas.DataFrame(results)], one row per
    dictionary in list order. *)
Definition loop_body (w : world) (results : list info) (url : string)
  : result (list info) :=
  repository_metadata_xml <- fetch w url ;;
  i <- extract_repository_info w repository_metadata_xml ;;
  Ok (results ++ [i]).

Definition repository_info (w : world) (urls : list string)
  : result (list info) :=
  for_each (loop_body w) urls [].

End Py01.

(** ** Keeping the first occurrence of each key *)

(** [pandas.DataFrame.drop_duplicates] (default [keep="first"]) and R's
    [unique] both walk the data in order and keep an element exactly when
    its key has not been met before. *)
Section KeepFirst.
Variables (A K : Type).
Variable key_eq_dec : forall x y : K, {x = y} + {x <> y}.
Variable key : A -> K.

Fixpoint keep_first (seen : list K) (l : list A) : list A :=
  match l with
  | [] => []
  | x :: l' =>
    if in_dec key_eq_dec (key x) seen
    then keep_first seen l'
    else x :: keep_first (key x :: seen) l'
  end.
End KeepFirst.

(** ** The part of pandas that the Python notebooks use *)

(** The frame built by [pandas.DataFrame(results)] has the index
    [0 .. n-1].  [Series.explode] repeats the label of a row once per
    element of its cell, so the index of an exploded column is known from
    the sizes of its groups: two exploded columns have the same index when
    their groups have the same sizes, and an index has no repeated label
    when every group has size one.  [DataFrame.apply] hands the exploded
    columns to the frame constructor, which unites their indexes and
    reindexes every column to the union. *)

Module Pandas.

(** A cell of an object column: a string, a Python list (the raw result
    of an XPath query), or a missing value. *)
Inductive cell : Type :=
| Str (s : string)
| Lst (l : list string)
| NaN.

Definition cell_eq_dec (x y : cell) : {x = y} + {x <> y}.
Proof.
  decide equality; [ apply string_dec | apply (list_eq_dec string_dec) ].
Defined.

(** A frame after explosion: the column names and the rows, each with
    its index label (labels repeat, as in the printed output of the
    notebook) and one cell per column. *)
Record DataFrame : Type := {
  columns : list string;
  rows : list (nat * list cell)
}.

(** [reshape.explode] on one cell: a list-like cell yields its elements,
    an empty list yields one missing value, a scalar is kept. *)
Definition explode_cell (c : cell) : list cell :=
  match c with
  | Lst [] => [NaN]
  | Lst l => map Str l
  | _ => [c]
  end.

(** [Series.explode] on a column whose index is [0 .. n-1]: the result,
    grouped by the label each value came from.  Label [i] occurs in the
    index of the result as often as its group is long. *)
Definition Series_explode (col : list cell) : list (list cell) :=
  map explode_cell col.

Definition counts (s : list (list cell)) : list nat :=
  map (@length cell) s.

Fixpoint zip_max (a b : list nat) : list nat :=
  match a, b with
  | x :: a', y :: b' => Nat.max x y :: zip_max a' b'
  | _, _ => []
  end.

(** [union_indexes]: the indexes of the exploded columns are united from
    left to right; a label occurs in the union as often as in the column
    where it occurs most. *)
Definition union_indexes (first : list nat) (others : list (list nat))
  : list nat :=
  fold_left zip_max others first.

Definition list_nat_eqb (a b : list nat) : bool :=
  if list_eq_dec Nat.eq_dec a b then true else false.

(** The values of a column without repeated label, taken at the
    positions of the target index. *)
Fixpoint take (s : list (list cell)) (target : list nat) : list (list cell) :=
  match s, target with
  | g :: s', m :: target' => repeat (hd NaN g) m :: take s' target'
  | _, _ => []
  end.

(** [Series.reindex(target)]: nothing to do when the index is the target;
    when the index has no repeated label every target position takes the
    value of its label; otherwise pandas raises
    "cannot reindex from a duplicate axis". *)
Definition reindex (target : list nat) (s : list (list cell))
  : result (list (list cell)) :=
  if list_nat_eqb (counts s) target then Ok s
  else if forallb (Nat.eqb 1) (counts s) then Ok (take s target)
  else Raise ValueError.

(** The rows for one label: position [j] of every aligned group. *)
Fixpoint zip_groups (label m : nat) (groups : list (list cell))
  : list (nat * list cell) :=
  match m with
  | O => []
  | S m' =>
    (label, map (hd NaN) groups) :: zip_groups label m' (map (@tl cell) groups)
  end.

Fixpoint assemble (label : nat) (target : list nat)
         (cols : list (list (list cell))) : list (nat * list cell) :=
  match target with
  | [] => []
  | m :: target' =>
    zip_groups label m (map (hd []) cols)
      ++ assemble (S label) target' (map (@tl (list cell)) cols)
  end.

(** [frame.apply(pandas.Series.explode)] on a frame given by its named
    columns: every column is exploded on its own, and the frame
    constructor aligns the results on the union of their indexes. *)
Definition apply_explode (frame : list (string * list cell))
  : result DataFrame :=
  let exploded := map (fun c => Series_explode (snd c)) frame in
  match exploded with
  | [] => Ok {| columns := []; rows := [] |}
  | s0 :: rest =>
    let target := union_indexes (counts s0) (map counts rest) in
    aligned <- mapM (reindex target) exploded ;;
    Ok {| columns := map fst frame; rows := assemble 0 target aligned |}
  end.

(** Position of a column; [frame[name]] raises [KeyError] without it. *)
Fixpoint loc (names : list string) (name : string) : result nat :=
  match names with
  | [] => Raise KeyError
  | n :: names' =>
    if string_dec n name then Ok 0
    else p <- loc names' name ;; Ok (S p)
  end.

Definition at_pos (p : nat) (r : nat * list cell) : cell := nth p (snd r) NaN.

Definition key_of (ps : list nat) (r : nat * list cell) : list cell :=
  map (fun p => at_pos p r) ps.

(** [frame.drop_duplicates(subset=[...])] as the notebook calls it: on a
    frame with rows, for a subset that names columns whose cells are
    texts or missing values, as they are after the explosion.  The first
    row of every key is kept; missing values compare equal to each other
    there. *)
Definition drop_duplicates (df : DataFrame) (subset : list string)
  : result DataFrame :=
  ps <- mapM (loc (columns df)) subset ;;
  Ok {| columns := columns df;
        rows := keep_first (list_eq_dec cell_eq_dec) (key_of ps) [] (rows df) |}.

(** [frame[name] = frame[name].astype("category")]: the values stay. *)
Definition astype_category (df : DataFrame) (name : string) : result DataFrame :=
  _ <- loc (columns df) name ;; Ok df.

(** [frame.sort_values(by=name, inplace=True)]: the rows, each with its
    label, are taken at the positions that [argsort] returns for the
    cells of the column.  The default kind of sort, "quicksort", does
    not say in which order rows with equal keys come out, so the sorting
    permutation is not computed here: [argsort] is an argument, from the
    cells of the column to the positions in sorted order. *)
Definition sort_values (argsort : list cell -> list nat)
           (df : DataFrame) (name : string) : result DataFrame :=
  p <- loc (columns df) name ;;
  Ok {| columns := columns df;
        rows := map (fun j => nth j (rows df) (0, []))
                    (argsort (map (at_pos p) (rows df))) |}.

End Pandas.

(** ** Use case 3, Python *)

Module Py03.
Import Pandas.

(** The dictionary returned by [extract_repository_info]
    ([typing.Dict[str, typing.Any]]): two strings and three XPath result
    lists. *)
Record info : Type := {
  re3data_id : string;
  name : string;
  url : list string;
  api : list string;
  api_type : list string
}.

(** [l[0]] *)
Definition item0 (l : list string) : result string :=
  match l with
  | [] => Raise IndexError
  | x :: _ => Ok x
  end.

Definition extract_repository_info (repository_metadata_xml : document)
  : result info :=
  id <- item0 (xpath repository_metadata_xml "//re3data.orgidentifier/text()") ;;
  nm <- item0 (xpath repository_metadata_xml "//repositoryname/text()") ;;
  Ok {| re3data_id := id;
        name := nm;
        url := xpath repository_metadata_xml "//repositoryurl/text()";
        api := xpath repository_metadata_xml "//api/text()";
        api_type := xpath repository_metadata_xml "//@apitype" |}.

(** Step 4: the loop, with its filter on repositories without API. *)
Definition loop_body (w : world) (results : list info) (url : string)
  : result (list info) :=
  repository_metadata_xml <- fetch w url ;;
  repository_info <- extract_repository_info repository_metadata_xml ;;
  if (0 <? length (api repository_info))%nat
  then Ok (results ++ [repository_info])
  else Ok results.

Definition results (w : world) (urls : list string) : result (list info) :=
  for_each (loop_body w) urls [].

(** [pandas.DataFrame(results)]: one column per key of the dictionaries,
    no column at all for an empty list. *)
Definition DataFrame_of (results : list info) : list (string * list cell) :=
  match results with
  | [] => []
  | _ =>
    [ ("re3data_id", map (fun r => Str (re3data_id r)) results);
      ("name", map (fun r => Str (name r)) results);
      ("url", map (fun r => Lst (url r)) results);
      ("api", map (fun r => Lst (api r)) results);
      ("api_type", map (fun r => Lst (api_type r)) results) ]
  end.

(** [pandas.DataFrame(results).apply(pandas.Series.explode)] *)
Definition explode (results : list info) : result DataFrame :=
  apply_explode (DataFrame_of results).

(** Steps 4 and 5: the loop, then the four statements that build
    [repository_info]. *)
Definition repository_info (w : world) (argsort : list cell -> list nat)
           (urls : list string) : result DataFrame :=
  rs <- results w urls ;;
  df <- explode rs ;;
  df <- astype_category df "api_type" ;;
  sort_values argsort df "re3data_id".

(** The frame that the plot of step 5 counts. *)
Definition plotted (df : DataFrame) : result DataFrame :=
  drop_duplicates df ["re3data_id"; "api_type"].

End Py03.

(** ** The part of R that the R notebooks use *)

Module R.

(** A value in a column of a data frame. *)
Inductive value : Type :=
| chr (s : string)
| lgl (b : bool)
| NA.

(** [unique(x)] on a character vector. *)
Definition unique (x : list string) : list string :=
  keep_first string_dec (fun s => s) [] x.

(** [paste(x, collapse = sep)] *)
Definition paste_collapse (x : list string) (sep : string) : string :=
  String.concat sep x.

(** [na_if(x, y)] *)
Definition na_if (x : value) (y : string) : value :=
  match x with
  | chr s => if string_dec s y then NA else x
  | _ => x
  end.

Definition is_na (x : value) : bool :=
  match x with
  | NA => true
  | _ => false
  end.

(** The pieces of [s] between the matches of a separator without regular
    expression operators, matched from the left and without overlap;
    empty pieces are kept (this is how [separate_rows] cuts a cell).
    [skip] counts the characters of a matched separator still to be
    passed over, [cur] is the piece being read. *)
Fixpoint split_from (sep : string) (skip : nat) (cur s : string) : list string :=
  match s with
  | EmptyString => [cur]
  | String c s' =>
    match skip with
    | S k => split_from sep k cur s'
    | O =>
      if String.prefix sep s
      then cur :: split_from sep (String.length sep - 1) EmptyString s'
      else split_from sep 0 (String.append cur (String c EmptyString)) s'
    end
  end.

Definition str_split (s sep : string) : list string :=
  split_from sep 0 EmptyString s.

End R.

(** ** Use case 1, R *)

Module R01.

(** The named list returned by [extract_repository_info]: four
    character vectors. *)
Record results_list : Type := {
  re3data_ID : list string;
  repositoryName : list string;
  repositoryUrl : list string;
  description : list string
}.

Definition extract_repository_info (repository_metadata_XML : document)
  : results_list :=
  {| re3data_ID := xpath repository_metadata_XML "//r3d:re3data.orgIdentifier";
     repositoryName := xpath repository_metadata_XML "//r3d:repositoryName";
     repositoryUrl := xpath repository_metadata_XML "//r3d:repositoryURL";
     description := xpath repository_metadata_XML "//r3d:description" |}.

(** One row of [repository_info]. *)
Record row : Type := {
  r_ID : string;
  r_Name : string;
  r_Url : string;
  r_description : string
}.

(** The rows that [rbind(repository_info, results_list)] adds.
    [rbind.data.frame] first leaves out every argument without rows, and
    the number of rows of a list is the length of its first variable: a
    list whose [re3data_ID] is empty adds nothing, whatever its other
    variables hold.  Any other list is taken as that many rows as its
    variables are long, and [rbind.data.frame] stops when they differ
    in length. *)
Definition new_rows (l : results_list) : result (list row) :=
  match re3data_ID l with
  | [] => Ok []
  | _ =>
    let n := length (re3data_ID l) in
    if (length (repositoryName l) =? n)%nat
       && (length (repositoryUrl l) =? n)%nat
       && (length (description l) =? n)%nat
    then Ok (map (fun t => match t with
                           | (((a, b), c), d) =>
                             {| r_ID := a; r_Name := b; r_Url := c; r_description := d |}
                           end)
                 (combine (combine (combine (re3data_ID l) (repositoryName l))
                                   (repositoryUrl l))
                          (description l)))
    else Raise RbindError
  end.

Definition rbind (repository_info : list row) (l : results_list)
  : result (list row) :=
  rs <- new_rows l ;; Ok (repository_info ++ rs).

(** Step 6: the loop over [URLs]. *)
Definition loop_body (w : world) (repository_info : list row) (url : string)
  : result (list row) :=
  repository_metadata_XML <- fetch w url ;;
  rbind repository_info (extract_repository_info repository_metadata_XML).

Definition repository_info (w : world) (URLs : list string)
  : result (list row) :=
  for_each (loop_body w) URLs [].

End R01.

(** ** Use case 2, R *)

Module R02.
Import R.

(** The named list returned by [extract_repository_info]: the vector of
    identifiers, and two strings made by [paste]. *)
Record results_list : Type := {
  l_re3data_ID : list string;
  l_type : string;
  l_certificate : string
}.

Definition extract_repository_info (repository_metadata_XML : document)
  : results_list :=
  {| l_re3data_ID := xpath repository_metadata_XML "//r3d:re3data.orgIdentifier";
     l_type :=
       paste_collapse (unique (xpath repository_metadata_XML "//r3d:type")) "_AND_";
     l_certificate :=
       paste_collapse (unique (xpath repository_metadata_XML "//r3d:certificate")) "_AND_" |}.

(** One row of [repository_info]. *)
Record row : Type := {
  re3data_ID : value;
  type : value;
  certificate : value
}.

(** [rbind(repository_info, results_list)].  [rbind.data.frame] first
    leaves out every argument without rows, and the number of rows of a
    list is the length of its first variable: a list without identifier
    is left out and the frame returned as it is.  [type] and
    [certificate] have length one, so a list with one identifier is one
    row; with two or more identifiers the variables differ in length and
    [rbind.data.frame] stops. *)
Definition rbind (repository_info : list row) (l : results_list)
  : result (list row) :=
  match l_re3data_ID l with
  | [] => Ok repository_info
  | [i] =>
    Ok (repository_info
          ++ [ {| re3data_ID := chr i;
                  type := chr (l_type l);
                  certificate := chr (l_certificate l) |} ])
  | _ => Raise RbindError
  end.

(** Step 5: the loop over [URLs]. *)
Definition loop_body (w : world) (repository_info : list row) (url : string)
  : result (list row) :=
  repository_metadata_XML <- fetch w url ;;
  rbind repository_info (extract_repository_info repository_metadata_XML).

Definition gather (w : world) (URLs : list string) : result (list row) :=
  for_each (loop_body w) URLs [].

(** Step 6, line 1: [mutate_all(na_if, "")] *)
Definition mutate_all_na_if (df : list row) : list row :=
  map (fun r => {| re3data_ID := na_if (re3data_ID r) "";
                   type := na_if (type r) "";
                   certificate := na_if (certificate r) "" |}) df.

(** Step 6, line 2:
    [mutate(certificate = ifelse(is.na(certificate), FALSE, TRUE))] *)
Definition mutate_certificate (df : list row) : list row :=
  map (fun r => {| re3data_ID := re3data_ID r;
                   type := type r;
                   certificate := if is_na (certificate r) then lgl false else lgl true |})
      df.

(** Step 6, line 3: [separate_rows(type, sep = "_AND_")]; a missing
    [type] stays one row. *)
Definition separate_row (r : row) : list row :=
  match type r with
  | chr s =>
    map (fun t => {| re3data_ID := re3data_ID r;
                     type := chr t;
                     certificate := certificate r |})
        (str_split s "_AND_")
  | _ => [r]
  end.

Definition separate_rows (df : list row) : list row :=
  flat_map separate_row df.

Definition process (df : list row) : list row :=
  separate_rows (mutate_certificate (mutate_all_na_if df)).

Definition repository_info (w : world) (URLs : list string)
  : result (list row) :=
  df <- gather w URLs ;; Ok (process df).

End R02.

(** ** Use case 3, Python: the listing and the figures of the plot *)

Module Py03Run.
Import Pandas Py03.

Definition URL : string := "https://www.re3data.org/api/beta/repositories".

(** Step 2: [tree.xpath("//@href")] on the parsed listing. *)
Definition urls (w : world) : result (list string) :=
  tree <- fetch w URL ;; Ok (xpath tree "//@href").

(** Steps 2 to 5 in a row. *)
Definition main (w : world) (argsort : list cell -> list nat)
  : result DataFrame :=
  us <- urls w ;; repository_info w argsort us.

(** [frame[name]]: the cells of a column. *)
Definition getitem (df : DataFrame) (name : string) : result (list cell) :=
  p <- loc (columns df) name ;; Ok (map (at_pos p) (rows df)).

(** [Series.unique()]: the distinct values in order of appearance. *)
Definition Series_unique (s : list cell) : list cell :=
  keep_first cell_eq_dec (fun c => c) [] s.

(** [num_repositories = len(repository_info["re3data_id"].unique())] *)
Definition num_repositories (df : DataFrame) : result nat :=
  s <- getitem df "re3data_id" ;; Ok (length (Series_unique s)).

End Py03Run.

(** ** Use case 2, R: the listing and the figures of the plot *)

Module R02Run.
Import R R02.

Definition value_eq_dec (x y : value) : {x = y} + {x <> y}.
Proof.
  decide equality; [ apply string_dec | apply Bool.bool_dec ].
Defined.

(** [paste(prefix, x, sep = "")] with one string [prefix]: it is recycled
    along [x], and a vector [x] without element counts as one empty
    string. *)
Definition paste (prefix : string) (x : list string) : list string :=
  match x with
  | [] => [prefix]
  | _ => map (String.append prefix) x
  end.

(** Step 2 *)
Definition re3data_IDs (w : world) : result (list string) :=
  re3data_request <- fetch w "http://re3data.org/api/v1/repositories" ;;
  Ok (xpath re3data_request "//id").

Definition URLs (w : world) : result (list string) :=
  ids <- re3data_IDs w ;;
  Ok (paste "https://www.re3data.org/api/v1/repository/" ids).

(** Steps 2 to 6 in a row. *)
Definition main (w : world) : result (list row) :=
  us <- URLs w ;; repository_info w us.

(** [n_distinct(x)]: a missing value counts as a value. *)
Definition n_distinct (x : list value) : nat :=
  length (keep_first value_eq_dec (fun v => v) [] x).

(** Step 7: [num_repositories <- n_distinct(repository_info$re3data_ID)] *)
Definition num_repositories (df : list row) : nat :=
  n_distinct (map re3data_ID df).

(** Step 7: [filter(!is.na(type))] *)
Definition filter_type (df : list row) : list row :=
  filter (fun r => negb (is_na (type r))) df.

End R02Run.

(** ** Vocabulary of the properties *)

(** A document given by the table of its query results. *)
Fixpoint matches_of (table : list (string * list string)) (q : string)
  : list string :=
  match table with
  | [] => []
  | (k, v) :: table' => if string_dec k q then v else matches_of table' q
  end.

Definition doc_of (table : list (string * list string)) : document :=
  matches_of table.

(** A world given by what is behind each url: the body of a resource is
    named after its url, and re-parsing always succeeds. *)
Definition world_of (site : string -> result document) : world :=
  {| http_get := fun url =>
       match site url with
       | Raise TransportError => Raise TransportError
       | _ => Ok url
       end;
     parse := site;
     reparse := fun d => Ok d |}.

(** "First matching value in document order, or null". *)
Definition first_match_or_null (matches : list string) (v : option string)
  : Prop :=
  match matches with
  | [] => v = None
  | x :: _ => v = Some x
  end.

Module Py03Rows.
Import Pandas Py03.

Definition first_or_nan (l : list string) : cell :=
  match l with
  | [] => NaN
  | x :: _ => Str x
  end.

(** The rows expected for one repository: the j-th api with the j-th
    api type, under the index label of the repository. *)
Definition paired_rows (label : nat) (i : info) : list (nat * list cell) :=
  map (fun p => (label, [Str (re3data_id i); Str (name i); first_or_nan (url i);
                         Str (fst p); Str (snd p)]))
      (combine (api i) (api_type i)).

Fixpoint table_from (label : nat) (rs : list info) : list (nat * list cell) :=
  match rs with
  | [] => []
  | i :: rs' => paired_rows label i ++ table_from (S label) rs'
  end.

(** At most one url, at least one api, and as many api types as apis. *)
Definition regular (i : info) : Prop :=
  length (url i) <= 1 /\ 1 <= length (api i) /\ length (api i) = length (api_type i).

(** Null padding of the shorter of two lists. *)
Definition padded (l : list string) (j : nat) : cell :=
  match nth_error l j with
  | Some x => Str x
  | None => NaN
  end.
End Py03Rows.

(** The rows of a frame whose cell in column [p] is [id], and the number
    of distinct cells that a list of rows has in column [q] (a missing
    value counts as a value, as it does for [drop_duplicates]). *)
Definition rows_with (p : nat) (id : Pandas.cell) (rows : list (nat * list Pandas.cell))
  : list (nat * list Pandas.cell) :=
  filter (fun r => if Pandas.cell_eq_dec (Pandas.at_pos p r) id then true else false)
         rows.

Definition distinct_values (q : nat) (rows : list (nat * list Pandas.cell)) : nat :=
  length (nodup Pandas.cell_eq_dec (map (Pandas.at_pos q) rows)).

(** The number of distinct values present in column [q]: a missing value
    is not a value. *)
Definition is_present (c : Pandas.cell) : bool :=
  match c with
  | Pandas.NaN => false
  | _ => true
  end.

Definition present_values (q : nat) (rows : list (nat * list Pandas.cell)) : nat :=
  length (nodup Pandas.cell_eq_dec (filter is_present (map (Pandas.at_pos q) rows))).

(** The same on documents: identifier and name are present, there is at
    most one url, at least one api, and as many api types as apis. *)
Definition regular_document (d : document) : Prop :=
  xpath d "//re3data.orgidentifier/text()" <> [] /\
  xpath d "//repositoryname/text()" <> [] /\
  length (xpath d "//repositoryurl/text()") <= 1 /\
  1 <= length (xpath d "//api/text()") /\
  length (xpath d "//api/text()") = length (xpath d "//@apitype").

(** The rows expected for one document under index label [label]: one per
    api, in document order, each with the first identifier, the first
    name, the url if any, and the api type at the same position. *)
Definition document_rows (label : nat) (d : document)
  : list (nat * list Pandas.cell) :=
  map (fun p =>
         (label,
          [ Pandas.Str (hd EmptyString (xpath d "//re3data.orgidentifier/text()"));
            Pandas.Str (hd EmptyString (xpath d "//repositoryname/text()"));
            Py03Rows.first_or_nan (xpath d "//repositoryurl/text()");
            Pandas.Str (fst p);
            Pandas.Str (snd p) ]))
      (combine (xpath d "//api/text()") (xpath d "//@apitype")).

Fixpoint document_table (label : nat) (ds : list document)
  : list (nat * list Pandas.cell) :=
  match ds with
  | [] => []
  | d :: ds' => document_rows label d ++ document_table (S label) ds'
  end.

(** The rows that one document contributes to the table of use case 2. *)
Definition R02_document_rows (d : document) : result (list R02.row) :=
  df <- R02.rbind [] (R02.extract_repository_info d) ;; Ok (R02.process df).

(** No match of the separator starts inside [v] when [v] is followed by
    the separator. *)
Fixpoint sep_free (sep v : string) : bool :=
  match v with
  | EmptyString => true
  | String _ v' => negb (String.prefix sep (String.append v sep)) && sep_free sep v'
  end.

(** *** The sentences of the specification that the code does not satisfy,
    as they are written *)

(** Equal counts of api and api type: [k] rows, one identifier, the
    single-valued columns constant, the j-th api with the j-th type. *)
Definition paired_explosion_as_specified (d : document) : Prop :=
  forall k,
    1 <= k ->
    length (xpath d "//api/text()") = k ->
    length (xpath d "//@apitype") = k ->
    exists i df id nm u,
      Py03.extract_repository_info d = Ok i /\
      Py03.explode [i] = Ok df /\
      length (Pandas.rows df) = k /\
      Pandas.rows df
      = map (fun p => (0, [Pandas.Str id; Pandas.Str nm; u;
                           Pandas.Str (fst p); Pandas.Str (snd p)]))
            (combine (xpath d "//api/text()") (xpath d "//@apitype")).




(** Deduplication on (identifier, field): for each identifier at most as
    many rows as values of the field are present for it. *)
Definition dedup_bound_as_specified (df : Pandas.DataFrame) (field : string)
  : Prop :=
  forall df' p q id,
    Pandas.drop_duplicates df ["re3data_id"; field] = Ok df' ->
    Pandas.loc (Pandas.columns df) "re3data_id" = Ok p ->
    Pandas.loc (Pandas.columns df) field = Ok q ->
    length (rows_with p id (Pandas.rows df'))
    <= present_values q (rows_with p id (Pandas.rows df)).

(** Mismatched counts: as many rows as the longer list, the shorter one
    padded with nulls. *)
Definition ragged_padding_as_specified (d : document) : Prop :=
  length (xpath d "//api/text()") <> length (xpath d "//@apitype") ->
  exists i df,
    Py03.extract_repository_info d = Ok i /\
    Py03.explode [i] = Ok df /\
    length (Pandas.rows df)
    = Nat.max (length (xpath d "//api/text()")) (length (xpath d "//@apitype")) /\
    forall j r,
      nth_error (Pandas.rows df) j = Some r ->
      Pandas.at_pos 3 r = Py03Rows.padded (xpath d "//api/text()") j /\
      Pandas.at_pos 4 r = Py03Rows.padded (xpath d "//@apitype") j.

(** As many rows as distinct type values. *)
Definition rows_per_distinct_type_as_specified (d : document) : Prop :=
  exists rows,
    R02_document_rows d = Ok rows /\
    length rows = length (R.unique (xpath d "//r3d:type")).

(** *** Sample documents *)

Definition doc_scenario_A2 : document :=
  doc_of [ ("//re3data.orgidentifier/text()", ["r3d100000002"]);
           ("//repositoryname/text()", ["R2"]);
           ("//repositoryurl/text()", ["https://r2.example.org/"]);
           ("//api/text()", ["a"; "b"]);
           ("//@apitype", ["REST"; "OAI-PMH"]) ].

Definition doc_one_api : document :=
  doc_of [ ("//re3data.orgidentifier/text()", ["r3d100000008"]);
           ("//repositoryname/text()", ["R8"]);
           ("//api/text()", ["https://r8.example.org/oai"]);
           ("//@apitype", ["OAI-PMH"]) ].

Definition doc_same_type_twice : document :=
  doc_of [ ("//re3data.orgidentifier/text()", ["r3d100000009"]);
           ("//repositoryname/text()", ["R9"]);
           ("//repositoryurl/text()", ["https://r9.example.org/"]);
           ("//api/text()", ["https://r9.example.org/v1"; "https://r9.example.org/v2"]);
           ("//@apitype", ["REST"; "REST"]) ].

Definition doc_two_urls : document :=
  doc_of [ ("//re3data.orgidentifier/text()", ["r3d100000001"]);
           ("//repositoryname/text()", ["R1"]);
           ("//repositoryurl/text()", ["https://r1.example.org/"; "https://mirror.example.org/"]);
           ("//api/text()", ["a"]);
           ("//@apitype", ["REST"]) ].

Definition doc_scenario_D : document :=
  doc_of [ ("//re3data.orgidentifier/text()", ["r3d100000004"]);
           ("//repositoryname/text()", ["R4"]);
           ("//repositoryurl/text()", ["https://r4.example.org/"]);
           ("//api/text()", ["a"; "b"; "c"]);
           ("//@apitype", ["REST"; "SWORD"]) ].

Definition doc_no_api : document :=
  doc_of [ ("//re3data.orgidentifier/text()", ["r3d100000005"]);
           ("//repositoryname/text()", ["R5"]);
           ("//repositoryurl/text()", ["https://r5.example.org/"]) ].

Definition doc_without_identifier : document :=
  doc_of [ ("//r3d:repositoryname/text()", ["Nameless"]);
           ("//repositoryname/text()", ["Nameless"]);
           ("//api/text()", ["a"]);
           ("//@apitype", ["REST"]) ].

Definition doc_medical : document :=
  doc_of [ ("//r3d:re3data.orgidentifier/text()", ["r3d100010141"]);
           ("//r3d:repositoryname/text()", ["Repo"; "Repo (alias)"]);
           ("//r3d:repositoryurl/text()", ["https://repo.example.org/"]);
           ("//r3d:re3data.orgIdentifier", ["r3d100010141"]);
           ("//r3d:repositoryName", ["Repo"]);
           ("//r3d:repositoryURL", ["https://repo.example.org/"]);
           ("//r3d:description", ["A repository."]) ].

Definition doc_scenario_C : document :=
  doc_of [ ("//r3d:re3data.orgIdentifier", ["r3d100000003"]);
           ("//r3d:type", ["institutional"; "other"]) ].

Definition doc_repeated_type : document :=
  doc_of [ ("//r3d:re3data.orgIdentifier", ["r3d100000006"]);
           ("//r3d:type", ["disciplinary"; "other"; "disciplinary"]);
           ("//r3d:certificate", ["CoreTrustSeal"; "CoreTrustSeal"]) ].

Definition doc_no_type : document :=
  doc_of [ ("//r3d:re3data.orgIdentifier", ["r3d100000007"]) ].

(** Two apis whose elements carry no [apiType] attribute. *)
Definition doc_api_without_type : document :=
  doc_of [ ("//re3data.orgidentifier/text()", ["r3d100000012"]);
           ("//repositoryname/text()", ["R12"]);
           ("//api/text()", ["a"; "b"]) ].

(** The exploded frame of [doc_api_without_type]. *)
Definition frame_api_without_type : Pandas.DataFrame :=
  {| Pandas.columns := ["re3data_id"; "name"; "url"; "api"; "api_type"];
     Pandas.rows :=
       [ (0, [ Pandas.Str "r3d100000012"; Pandas.Str "R12"; Pandas.NaN;
               Pandas.Str "a"; Pandas.NaN ]);
         (0, [ Pandas.Str "r3d100000012"; Pandas.Str "R12"; Pandas.NaN;
               Pandas.Str "b"; Pandas.NaN ]) ] |}.

(** A page that parses and holds none of the fields, as the answer to a
    request for a repository that does not exist. *)
Definition doc_error_page : document := doc_of [].

(** The exploded frame of [doc_same_type_twice], and what is left of it
    once each api type is counted once per repository. *)
Definition frame_same_type_twice : Pandas.DataFrame :=
  {| Pandas.columns := ["re3data_id"; "name"; "url"; "api"; "api_type"];
     Pandas.rows :=
       [ (0, [ Pandas.Str "r3d100000009"; Pandas.Str "R9";
               Pandas.Str "https://r9.example.org/";
               Pandas.Str "https://r9.example.org/v1"; Pandas.Str "REST" ]);
         (0, [ Pandas.Str "r3d100000009"; Pandas.Str "R9";
               Pandas.Str "https://r9.example.org/";
               Pandas.Str "https://r9.example.org/v2"; Pandas.Str "REST" ]) ] |}.

Definition frame_one_type : Pandas.DataFrame :=
  {| Pandas.columns := ["re3data_id"; "name"; "url"; "api"; "api_type"];
     Pandas.rows :=
       [ (0, [ Pandas.Str "r3d100000009"; Pandas.Str "R9";
               Pandas.Str "https://r9.example.org/";
               Pandas.Str "https://r9.example.org/v1"; Pandas.Str "REST" ]) ] |}.

(** Four references; [R1] cannot be fetched, [R9] is answered with an
    error page. *)
Definition site_R1_down (url : string) : result document :=
  if string_dec url "R1" then Raise TransportError
  else if string_dec url "R0" then Ok doc_scenario_A2
  else if string_dec url "R2" then Ok doc_scenario_A2
  else if string_dec url "R9" then Ok doc_error_page
  else Raise TransportError.

(** Five references, all served. *)
Definition site_up (url : string) : result document :=
  if string_dec url "R1" then Ok doc_medical
  else if string_dec url "R2" then Ok doc_scenario_A2
  else if string_dec url "R3" then Ok doc_without_identifier
  else if string_dec url "R4" then Ok doc_no_api
  else if string_dec url "R5" then Ok doc_scenario_C
  else Raise TransportError.

(** What one detail reference contributes in each notebook. *)
Definition Py01_record (w : world) (url : string) : result Py01.info :=
  d <- fetch w url ;; Py01.extract_repository_info w d.

Definition Py03_record (w : world) (url : string) : result (list Py03.info) :=
  d <- fetch w url ;;
  i <- Py03.extract_repository_info d ;;
  Ok (if (0 <? length (Py03.api i))%nat then [i] else []).

Definition R01_rows (w : world) (url : string) : result (list R01.row) :=
  d <- fetch w url ;; R01.new_rows (R01.extract_repository_info d).

(** *** Vocabulary of the further properties *)

(** The number of index entries that a cell of a list column takes once
    exploded, and the largest such number in a record. *)
Definition cell_count (l : list string) : nat := Nat.max 1 (length l).

Definition widest (r : Py03.info) : nat :=
  Nat.max (Nat.max (cell_count (Py03.url r)) (cell_count (Py03.api r)))
          (cell_count (Py03.api_type r)).


(** The index of an exploded frame: label [i] as often as the [i]-th
    number says. *)
Fixpoint labels_from (label : nat) (ms : list nat) : list nat :=
  match ms with
  | [] => []
  | m :: ms' => repeat label m ++ labels_from (S label) ms'
  end.

(** At most one url, at least one api, at most one api type. *)
Definition spreadable (r : Py03.info) : Prop :=
  length (Py03.url r) <= 1 /\ 1 <= length (Py03.api r)
  /\ length (Py03.api_type r) <= 1.

(** The rows expected for a record with at most one api type: that type
    (or a missing value) on the row of every api. *)
Definition spread_rows (label : nat) (i : Py03.info)
  : list (nat * list Pandas.cell) :=
  map (fun a => (label, [ Pandas.Str (Py03.re3data_id i); Pandas.Str (Py03.name i);
                          Py03Rows.first_or_nan (Py03.url i);
                          Pandas.Str a;
                          Py03Rows.first_or_nan (Py03.api_type i) ]))
      (Py03.api i).

Fixpoint spread_table (label : nat) (rs : list Py03.info)
  : list (nat * list Pandas.cell) :=
  match rs with
  | [] => []
  | i :: rs' => spread_rows label i ++ spread_table (S label) rs'
  end.

(** The order of the keys of a sorted column: texts as Python compares
    [str], missing values last. *)
Definition key_leb (a b : Pandas.cell) : bool :=
  match a, b with
  | Pandas.Str x, Pandas.Str y => String.leb x y
  | _, Pandas.NaN => true
  | _, _ => false
  end.

Definition key_le (a b : Pandas.cell) : Prop := key_leb a b = true.

(** [perm] is a sorting permutation of [keys]: it lists every position
    once, and the keys taken in that order never go down. *)
Definition is_argsort (keys : list Pandas.cell) (perm : list nat) : Prop :=
  Permutation perm (seq 0 (length keys)) /\
  StronglySorted key_le (map (fun j => nth j keys Pandas.NaN) perm).

(** One sorting permutation, the one that leaves equal keys in the order
    they have: every position is inserted behind the positions whose key
    is not larger. *)
Fixpoint insert_position (keys : list Pandas.cell) (j : nat) (sorted : list nat)
  : list nat :=
  match sorted with
  | [] => [j]
  | i :: sorted' =>
    if key_leb (nth i keys Pandas.NaN) (nth j keys Pandas.NaN)
    then i :: insert_position keys j sorted'
    else j :: sorted
  end.

Definition stable_argsort (keys : list Pandas.cell) : list nat :=
  fold_left (fun sorted j => insert_position keys j sorted)
            (seq 0 (length keys)) [].

(** The text of the [type] cell of a row. *)
Definition type_text (r : R02.row) : string :=
  match R02.type r with
  | R.chr s => s
  | _ => EmptyString
  end.

Definition has_api (d : document) : bool :=
  (0 <? length (xpath d "//api/text()"))%nat.

(** "Some text is not empty." *)
Definition some_text (l : list string) : bool :=
  existsb (fun s => if string_dec s "" then false else true) l.

(** *** Further samples *)

Definition doc_three_apis_one_type : document :=
  doc_of [ ("//re3data.orgidentifier/text()", ["r3d100000010"]);
           ("//repositoryname/text()", ["R10"]);
           ("//repositoryurl/text()", ["https://r10.example.org/"]);
           ("//api/text()", ["a"; "b"; "c"]);
           ("//@apitype", ["REST"]) ].

Definition doc_no_description : document :=
  doc_of [ ("//r3d:re3data.orgIdentifier", ["r3d100000011"]);
           ("//r3d:repositoryName", ["R11"]);
           ("//r3d:repositoryURL", ["https://r11.example.org/"]) ].

Definition doc_empty_listing : document := doc_of [].

Definition doc_two_identifiers : document :=
  doc_of [ ("//r3d:re3data.orgIdentifier", ["r3d100000013"; "r3d100000014"]);
           ("//r3d:type", ["other"]) ].

(** Only a name, no identifier. *)
Definition doc_name_only : document :=
  doc_of [ ("//r3d:repositoryName", ["Nameless"]);
           ("//r3d:type", ["other"]) ].

Definition doc_listing : document :=
  doc_of [ ("//@href", ["R4"; "R2"]); ("//id", ["r3d100000003"; "r3d100000007"]) ].

(** A registry without any repository. *)
Definition site_empty (url : string) : result document :=
  if string_dec url "https://www.re3data.org/api/beta/repositories"
  then Ok doc_empty_listing
  else if string_dec url "http://re3data.org/api/v1/repositories"
  then Ok doc_empty_listing
  else if string_dec url "https://www.re3data.org/api/v1/repository/"
  then Ok doc_empty_listing
  else Raise TransportError.

(** A registry with two repositories. *)
Definition site_registry (url : string) : result document :=
  if string_dec url "https://www.re3data.org/api/beta/repositories"
  then Ok doc_listing
  else if string_dec url "http://re3data.org/api/v1/repositories"
  then Ok doc_listing
  else if string_dec url "https://www.re3data.org/api/v1/repository/r3d100000003"
  then Ok doc_scenario_C
  else if string_dec url "https://www.re3data.org/api/v1/repository/r3d100000007"
  then Ok doc_no_type
  else if string_dec url "R1" then Ok doc_medical
  else if string_dec url "R2" then Ok doc_scenario_A2
  else if string_dec url "R4" then Ok doc_no_api
  else if string_dec url "R11" then Ok doc_no_description
  else if string_dec url "R8" then Ok doc_one_api
  else if string_dec url "R13" then Ok doc_two_identifiers
  else if string_dec url "R0" then Ok doc_name_only
  else Raise TransportError.

(** [occurs sep s]: the text [sep] occurs somewhere in [s]. *)
Fixpoint occurs (sep s : string) : bool :=
  match s with
  | EmptyString => String.prefix sep EmptyString
  | String _ s' => String.prefix sep s || occurs sep s'
  end.

(** * Properties *)

Unset Implicit Arguments.

(** ** Loops that can raise *)

Lemma bind_Ok_inv {A B} (m : result A) (k : A -> result B) (b : B) :
  bind m k = Ok b -> exists a, m = Ok a /\ k a = Ok b.
Proof.
  destruct m as [a|e]; simpl; intros H; [ exists a; auto | discriminate ].
Qed.


(** A loop that appends what each element yields is a [mapM] followed by
    a concatenation. *)
Lemma for_each_batches {A B} (body : list B -> A -> result (list B))
      (f : A -> result (list B)) :
  (forall acc x, body acc x = bind (f x) (fun b => Ok (acc ++ b))) ->
  forall xs acc,
    for_each body xs acc = bind (mapM f xs) (fun bs => Ok (acc ++ concat bs)).
Proof.
  intros Hbody; induction xs as [|x xs IH]; intros acc; simpl.
  - now rewrite app_nil_r.
  - rewrite Hbody. destruct (f x) as [b|e]; simpl; [|reflexivity].
    rewrite IH. destruct (mapM f xs) as [bs|e]; simpl; [|reflexivity].
    now rewrite app_assoc.
Qed.

Lemma mapM_Ok_iff {A B} (f : A -> result B) (xs : list A) (ys : list B) :
  mapM f xs = Ok ys <-> Forall2 (fun x y => f x = Ok y) xs ys.
Proof.
  revert ys; induction xs as [|x xs IH]; intros ys; simpl.
  - split; intros H; [ injection H as <-; constructor | inversion H; reflexivity ].
  - split.
    + intros H. apply bind_Ok_inv in H as (y & Hy & H).
      apply bind_Ok_inv in H as (ys' & Hys & H). injection H as <-.
      constructor; [assumption | now apply IH].
    + intros H. inversion H as [|? y ? ys' Hy Hys]; subst.
      rewrite Hy; simpl. apply IH in Hys. rewrite Hys; reflexivity.
Qed.


(** The first element that raises decides the outcome. *)
Lemma mapM_first_failure {A B} (f : A -> result B) (pre post : list A) (x : A) (e : exn) :
  Forall (fun x => exists y, f x = Ok y) pre ->
  f x = Raise e ->
  mapM f (pre ++ x :: post) = Raise e.
Proof.
  induction 1 as [|x0 pre [y Hy] _ IH]; intros Hx; simpl.
  - now rewrite Hx.
  - rewrite Hy; simpl. now rewrite IH.
Qed.


Lemma mapM_app {A B} (f : A -> result B) (xs ys : list A) :
  mapM f (xs ++ ys)
  = bind (mapM f xs) (fun a => bind (mapM f ys) (fun b => Ok (a ++ b))).
Proof.
  induction xs as [|x xs IH]; simpl.
  - destruct (mapM f ys); reflexivity.
  - destruct (f x) as [y|e]; simpl; [|reflexivity]. rewrite IH.
    destruct (mapM f xs) as [a|e]; simpl; [|reflexivity].
    destruct (mapM f ys) as [b|e]; reflexivity.
Qed.

Lemma concat_singletons {A} (l : list A) : concat (map (fun x => [x]) l) = l.
Proof. induction l; simpl; congruence. Qed.

(** ** The loops of the notebooks, one reference after the other *)

Lemma Py01_loop_mapM (w : world) (urls : list string) :
  Py01.repository_info w urls = mapM (Py01_record w) urls.
Proof.
  unfold Py01.repository_info.
  rewrite (for_each_batches (Py01.loop_body w)
             (fun url => bind (Py01_record w url) (fun i => Ok [i]))).
  - simpl. induction urls as [|u urls IH]; simpl; [reflexivity|].
    destruct (Py01_record w u) as [i|e]; simpl; [|reflexivity].
    destruct (mapM (Py01_record w) urls) as [rs|e];
      destruct (mapM _ urls) as [bs|e']; simpl in *; try congruence.
  - intros acc url. unfold Py01.loop_body, Py01_record.
    destruct (fetch w url) as [d|e]; simpl; [|reflexivity].
    destruct (Py01.extract_repository_info w d); reflexivity.
Qed.

Lemma Py03_loop_mapM (w : world) (urls : list string) :
  Py03.results w urls = bind (mapM (Py03_record w) urls) (fun bs => Ok (concat bs)).
Proof.
  unfold Py03.results.
  rewrite (for_each_batches (Py03.loop_body w) (Py03_record w)); [reflexivity|].
  intros acc url. unfold Py03.loop_body, Py03_record.
  destruct (fetch w url) as [d|e]; simpl; [|reflexivity].
  destruct (Py03.extract_repository_info d) as [i|e]; simpl; [|reflexivity].
  destruct (0 <? length (Py03.api i))%nat; [reflexivity | now rewrite app_nil_r].
Qed.

Lemma R01_loop_mapM (w : world) (URLs : list string) :
  R01.repository_info w URLs
  = bind (mapM (R01_rows w) URLs) (fun bs => Ok (concat bs)).
Proof.
  unfold R01.repository_info.
  rewrite (for_each_batches (R01.loop_body w) (R01_rows w)); [reflexivity|].
  intros acc url. unfold R01.loop_body, R01_rows, R01.rbind.
  destruct (fetch w url) as [d|e]; reflexivity.
Qed.

(** ** Single-valued fields (use case 1, Python) *)

(** C7.  For every parsed detail document, each single-valued field of
    use case 1 (identifier, name, url, description) is the first match of
    its query in document order when there is one, and null when there is
    none; the extraction returns a record in both cases, it never
    raises. *)
Theorem C7_single_valued_first_match_or_null
        (w : world) (xml_content d : document)
        (Hparsed : reparse w xml_content = Ok d) :
  exists i,
    Py01.extract_repository_info w xml_content = Ok i /\
    first_match_or_null (xpath d "//r3d:re3data.orgidentifier/text()") (Py01.re3data_id i) /\
    first_match_or_null (xpath d "//r3d:repositoryname/text()") (Py01.name i) /\
    first_match_or_null (xpath d "//r3d:repositoryurl/text()") (Py01.url i) /\
    first_match_or_null (xpath d "//r3d:description/text()") (Py01.description i).
Proof.
  unfold Py01.extract_repository_info. rewrite Hparsed; simpl.
  eexists; split; [reflexivity|]. simpl.
  repeat split;
    match goal with
    | |- first_match_or_null ?l _ => destruct l; reflexivity
    end.
Qed.

Lemma C7_witness :
  exists i,
    Py01.extract_repository_info (world_of site_up) doc_medical = Ok i /\
    Py01.name i = Some "Repo" /\
    Py01.description i = None.
Proof.
  destruct (C7_single_valued_first_match_or_null
              (world_of site_up) doc_medical doc_medical eq_refl)
    as (i & Hi & _ & Hname & _ & Hdesc).
  exists i. split; [exact Hi|]. split; [exact Hname | exact Hdesc].
Defined.

(** ** Missing identifier or name *)




(** ** Failures while fetching or parsing *)




(** ** Order of the rows *)

(** C9.  The table is assembled in the order of the detail references: in
    use case 1 (Python) it is the list of the records of the references,
    one after the other; in use case 1 (R) it is the concatenation, in
    that order, of the rows that each reference contributes.  A table is
    returned exactly when every reference yields its record (its rows). *)
Theorem C9_rows_in_reference_order (w : world) (urls : list string) :
  (forall t,
      Py01.repository_info w urls = Ok t
      <-> Forall2 (fun url i => Py01_record w url = Ok i) urls t) /\
  (forall t,
      R01.repository_info w urls = Ok t
      <-> exists batches,
          Forall2 (fun url b => R01_rows w url = Ok b) urls batches /\
          t = concat batches).
Proof.
  split; intros t.
  - rewrite Py01_loop_mapM. apply mapM_Ok_iff.
  - rewrite R01_loop_mapM. split.
    + intros H. apply bind_Ok_inv in H as (bs & Hbs & H). injection H as <-.
      exists bs. split; [now apply mapM_Ok_iff | reflexivity].
    + intros (bs & Hbs & ->). apply mapM_Ok_iff in Hbs. now rewrite Hbs.
Qed.

(** ** Explosion of the frame of use case 3 *)

Section Explode.
Import Pandas Py03 Py03Rows.

Lemma map_ext_Forall_in {A B} (P : A -> Prop) (f g : A -> B) (l : list A) :
  Forall P l -> (forall x, P x -> f x = g x) -> map f l = map g l.
Proof.
  intros HP Hfg. induction HP as [|x l Hx _ IH]; simpl; [reflexivity|].
  now rewrite IH, (Hfg x Hx).
Qed.

Lemma explode_cell_Lst_length (l : list string) :
  length (explode_cell (Lst l)) = Nat.max 1 (length l).
Proof.
  destruct l as [|x l]; simpl; [reflexivity|]. now rewrite length_map.
Qed.

Lemma zip_max_map {A} (f g : A -> nat) (l : list A) :
  zip_max (map f l) (map g l) = map (fun x => Nat.max (f x) (g x)) l.
Proof. induction l; simpl; congruence. Qed.

Lemma list_nat_eqb_refl (a : list nat) : list_nat_eqb a a = true.
Proof.
  unfold list_nat_eqb.
  destruct (list_eq_dec Nat.eq_dec a a) as [_|Hne]; [reflexivity | now elim Hne].
Qed.

Lemma forallb_ones {A} (rs : list A) :
  forallb (Nat.eqb 1) (map (fun _ => 1) rs) = true.
Proof. induction rs; simpl; auto. Qed.

Lemma take_singletons {A} (c : A -> cell) (k : A -> nat) (rs : list A) :
  take (map (fun r => [c r]) rs) (map k rs)
  = map (fun r => repeat (c r) (k r)) rs.
Proof. induction rs as [|r rs IH]; simpl; [reflexivity | now rewrite IH]. Qed.

Lemma singletons_when_ones {A} (c : A -> cell) (k : A -> nat) (rs : list A) :
  map (fun _ => 1) rs = map k rs ->
  map (fun r => [c r]) rs = map (fun r => repeat (c r) (k r)) rs.
Proof.
  induction rs as [|r rs IH]; simpl; intros Heq; [reflexivity|].
  injection Heq as H1 Hrs. now rewrite <- H1, (IH Hrs).
Qed.

(** A column whose exploded index has no repeated label is spread over
    the target index. *)
Lemma reindex_singletons {A} (c : A -> cell) (k : A -> nat) (rs : list A) :
  reindex (map k rs) (map (fun r => [c r]) rs)
  = Ok (map (fun r => repeat (c r) (k r)) rs).
Proof.
  unfold reindex, counts. rewrite map_map.
  change (fun x : A => length [c x]) with (fun _ : A => 1).
  unfold list_nat_eqb.
  destruct (list_eq_dec Nat.eq_dec (map (fun _ => 1) rs) (map k rs)) as [Heq|_].
  - f_equal. now apply singletons_when_ones.
  - rewrite forallb_ones. f_equal. apply take_singletons.
Qed.

Lemma reindex_same (target : list nat) (s : list (list cell)) :
  counts s = target -> reindex target s = Ok s.
Proof. intros <-. unfold reindex. now rewrite list_nat_eqb_refl. Qed.

Lemma zip_groups_paired (label : nat) (a b c : cell) (xs ys : list string) :
  length xs = length ys ->
  zip_groups label (length xs)
             [repeat a (length xs); repeat b (length xs); repeat c (length xs);
              map Str xs; map Str ys]
  = map (fun p => (label, [a; b; c; Str (fst p); Str (snd p)])) (combine xs ys).
Proof.
  revert ys; induction xs as [|x xs IH]; intros [|y ys] Hlen;
    simpl in *; try discriminate; [reflexivity|].
  f_equal. apply IH. now injection Hlen.
Qed.

Lemma assemble_regular (rs : list info) :
  Forall regular rs ->
  forall label,
    assemble label (map (fun r => length (api r)) rs)
             [ map (fun r => repeat (Str (re3data_id r)) (length (api r))) rs;
               map (fun r => repeat (Str (name r)) (length (api r))) rs;
               map (fun r => repeat (first_or_nan (url r)) (length (api r))) rs;
               map (fun r => map Str (api r)) rs;
               map (fun r => map Str (api_type r)) rs ]
    = table_from label rs.
Proof.
  induction 1 as [|r rs (_ & _ & Hlen) _ IH]; intros label; simpl; [reflexivity|].
  rewrite IH. f_equal. now apply zip_groups_paired.
Qed.

Lemma explode_scalar_column {A} (f : A -> string) (rs : list A) :
  Series_explode (map (fun r => Str (f r)) rs) = map (fun r => [Str (f r)]) rs.
Proof. unfold Series_explode. now rewrite map_map. Qed.

Lemma explode_url_column (rs : list info) :
  Forall regular rs ->
  Series_explode (map (fun r => Lst (url r)) rs)
  = map (fun r => [first_or_nan (url r)]) rs.
Proof.
  intros Hreg. unfold Series_explode. rewrite map_map.
  apply (map_ext_Forall_in regular); [assumption|].
  intros r (Hurl & _). destruct (url r) as [|u [|u' us]]; simpl in *;
    [reflexivity | reflexivity | lia].
Qed.

Lemma explode_list_column (f : info -> list string) (rs : list info) :
  Forall (fun r => 1 <= length (f r)) rs ->
  Series_explode (map (fun r => Lst (f r)) rs) = map (fun r => map Str (f r)) rs.
Proof.
  intros Hne. unfold Series_explode. rewrite map_map.
  apply (map_ext_Forall_in (fun r => 1 <= length (f r))); [assumption|].
  intros r Hr. destruct (f r); simpl in *; [lia | reflexivity].
Qed.

(** The frame of regular repositories explodes into their paired rows,
    repository after repository. *)
Lemma explode_regular (rs : list info) :
  Forall regular rs ->
  exists df, explode rs = Ok df /\ rows df = table_from 0 rs.
Proof.
  intros Hreg. destruct rs as [|r0 rs0]; [eexists; split; reflexivity|].
  unfold explode, DataFrame_of. set (rs := r0 :: rs0) in *.
  unfold apply_explode. cbn [map snd fst].
  rewrite !explode_scalar_column, (explode_url_column rs Hreg).
  rewrite (explode_list_column api), (explode_list_column api_type);
    [| eapply Forall_impl; [|exact Hreg]; intros r (_ & H1 & H2); simpl; lia
     | eapply Forall_impl; [|exact Hreg]; intros r (_ & H1 & H2); simpl; lia ].
  assert (Htarget :
            union_indexes
              (counts (map (fun r : info => [Str (re3data_id r)]) rs))
              [counts (map (fun r : info => [Str (name r)]) rs);
               counts (map (fun r : info => [first_or_nan (url r)]) rs);
               counts (map (fun r : info => map Str (api r)) rs);
               counts (map (fun r : info => map Str (api_type r)) rs)]
            = map (fun r => length (api r)) rs).
  { unfold union_indexes, counts. rewrite !map_map. cbn [fold_left].
    rewrite !zip_max_map.
    apply (map_ext_Forall_in regular); [assumption|].
    intros r (_ & H1 & H2). cbn [length]. rewrite !length_map. lia. }
  rewrite Htarget. cbn [mapM].
  rewrite !reindex_singletons. cbn [bind].
  rewrite (reindex_same _ (map (fun r : info => map Str (api r)) rs)).
  2:{ unfold counts. rewrite map_map. apply map_ext. intros r. apply length_map. }
  rewrite (reindex_same _ (map (fun r : info => map Str (api_type r)) rs)).
  2:{ unfold counts. rewrite map_map.
      apply (map_ext_Forall_in regular); [assumption|].
      intros r (_ & _ & H2). now rewrite length_map. }
  cbn [bind]. eexists; split; [reflexivity|]. cbn [rows].
  now apply assemble_regular.
Qed.

Lemma extract_present (d : document) (id nm : string) (ids nms : list string) :
  xpath d "//re3data.orgidentifier/text()" = id :: ids ->
  xpath d "//repositoryname/text()" = nm :: nms ->
  extract_repository_info d
  = Ok {| re3data_id := id;
          name := nm;
          url := xpath d "//repositoryurl/text()";
          api := xpath d "//api/text()";
          api_type := xpath d "//@apitype" |}.
Proof.
  intros Hid Hnm. unfold extract_repository_info. now rewrite Hid, Hnm.
Qed.

Lemma extract_regular (ds : list document) :
  Forall regular_document ds ->
  exists infos,
    mapM extract_repository_info ds = Ok infos /\
    Forall regular infos /\
    forall label, table_from label infos = document_table label ds.
Proof.
  induction 1 as [|d ds (Hid & Hnm & Hurl & Hk & Hlen) _ (infos & Hinfos & Hreg & Htab)].
  - exists []. split; [reflexivity|]. split; [constructor | reflexivity].
  - destruct (xpath d "//re3data.orgidentifier/text()") as [|id ids] eqn:Eid;
      [now elim Hid|].
    destruct (xpath d "//repositoryname/text()") as [|nm nms] eqn:Enm;
      [now elim Hnm|].
    eexists. simpl. rewrite (extract_present d id nm ids nms Eid Enm), Hinfos.
    simpl. split; [reflexivity|]. split.
    + constructor; [|assumption]. repeat split; simpl; assumption.
    + intros label. simpl. rewrite Htab. f_equal.
      unfold paired_rows, document_rows. simpl. now rewrite Eid, Enm.
Qed.

Lemma reindex_exn (target : list nat) (s : list (list cell)) (e : exn) :
  reindex target s = Raise e -> e = ValueError.
Proof.
  unfold reindex.
  destruct (list_nat_eqb (counts s) target); [discriminate|].
  destruct (forallb (Nat.eqb 1) (counts s)); [discriminate|].
  now intros [= <-].
Qed.

Lemma mapM_exn {A B} (f : A -> result B) (P : exn -> Prop) (l : list A) (e : exn) :
  (forall x e', f x = Raise e' -> P e') ->
  mapM f l = Raise e -> P e.
Proof.
  intros Hf. induction l as [|x l IH]; simpl; [discriminate|].
  destruct (f x) as [y|e'] eqn:Ex; simpl.
  - destruct (mapM f l) as [ys|e'']; simpl; [discriminate|].
    intros [= <-]. now apply IH.
  - intros [= <-]. now apply (Hf x).
Qed.

(** The only exception of the explosion is the one of [reindex]. *)
Lemma explode_exn (rs : list info) (e : exn) :
  explode rs = Raise e -> e = ValueError.
Proof.
  unfold explode, apply_explode.
  destruct (map (fun c => Series_explode (snd c)) (DataFrame_of rs)) as [|s0 rest];
    [discriminate|].
  set (target := union_indexes _ _).
  destruct (mapM (reindex target) (s0 :: rest)) as [al|e'] eqn:E;
    [discriminate|].
  intros [= <-].
  apply (mapM_exn (reindex target) (fun e => e = ValueError) (s0 :: rest) e');
    [|exact E].
  intros x e''. apply reindex_exn.
Qed.

Lemma reindex_Ok_inv (target : list nat) (s s' : list (list cell)) :
  reindex target s = Ok s' ->
  counts s = target \/ forallb (Nat.eqb 1) (counts s) = true.
Proof.
  unfold reindex, list_nat_eqb.
  destruct (list_eq_dec Nat.eq_dec (counts s) target) as [Heq|_]; [now left|].
  destruct (forallb (Nat.eqb 1) (counts s)); [now right | discriminate].
Qed.

Lemma counts_list_column (f : info -> list string) (rs : list info) :
  counts (Series_explode (map (fun r => Lst (f r)) rs))
  = map (fun r => Nat.max 1 (length (f r))) rs.
Proof.
  unfold counts, Series_explode. rewrite !map_map.
  apply map_ext. intros r. apply explode_cell_Lst_length.
Qed.

Lemma map_eq_In {A B} (f g : A -> B) (l : list A) (x : A) :
  map f l = map g l -> In x l -> f x = g x.
Proof.
  induction l as [|y l IH]; simpl; intros Heq Hin; [contradiction|].
  injection Heq as Hy Hl. destruct Hin as [->|Hin]; auto.
Qed.

Lemma not_all_ones (f : info -> nat) (rs : list info) (r : info) :
  In r rs -> 2 <= f r -> forallb (Nat.eqb 1) (map f rs) = false.
Proof.
  intros Hin Hr. destruct (forallb (Nat.eqb 1) (map f rs)) eqn:E; [|reflexivity].
  rewrite forallb_forall in E.
  specialize (E (f r) (in_map f rs r Hin)). apply Nat.eqb_eq in E. lia.
Qed.

(** A frame with a repository whose apis and api types are both repeated
    but differ in number cannot be aligned: both columns have a repeated
    label, and they cannot both be the union index. *)
Lemma explode_ragged (rs : list info) (r : info) :
  In r rs ->
  2 <= length (api r) ->
  2 <= length (api_type r) ->
  length (api r) <> length (api_type r) ->
  explode rs = Raise ValueError.
Proof.
  intros Hin Ha Ht Hne.
  destruct (explode rs) as [df|e] eqn:E;
    [exfalso | now rewrite (explode_exn rs e E)].
  destruct rs as [|r0 rs0]; [contradiction|].
  unfold explode, DataFrame_of, apply_explode in E. set (rs := r0 :: rs0) in *.
  cbn [map snd fst] in E.
  set (target := union_indexes _ _) in E. cbn [mapM] in E.
  destruct (reindex target _) as [c1|] in E; [cbn [bind] in E | discriminate].
  destruct (reindex target _) as [c2|] in E; [cbn [bind] in E | discriminate].
  destruct (reindex target _) as [c3|] in E; [cbn [bind] in E | discriminate].
  destruct (reindex target (Series_explode (map (fun r => Lst (api r)) rs)))
    as [c4|] eqn:E4; [cbn [bind] in E | discriminate].
  destruct (reindex target (Series_explode (map (fun r => Lst (api_type r)) rs)))
    as [c5|] eqn:E5; [cbn [bind] in E | discriminate].
  apply reindex_Ok_inv in E4, E5. rewrite counts_list_column in E4, E5.
  destruct E4 as [E4|E4];
    [| rewrite (not_all_ones (fun r => Nat.max 1 (length (api r))) rs r Hin) in E4;
       [discriminate | lia] ].
  destruct E5 as [E5|E5];
    [| rewrite (not_all_ones (fun r => Nat.max 1 (length (api_type r))) rs r Hin) in E5;
       [discriminate | lia] ].
  rewrite <- E5 in E4.
  apply (map_eq_In _ _ rs r) in E4; [cbv beta in E4; lia | assumption].
Qed.

Lemma extract_Ok_fields (d : document) (i : info) :
  extract_repository_info d = Ok i ->
  url i = xpath d "//repositoryurl/text()" /\
  api i = xpath d "//api/text()" /\
  api_type i = xpath d "//@apitype".
Proof.
  unfold extract_repository_info.
  destruct (item0 _); simpl; [|discriminate].
  destruct (item0 _); simpl; [|discriminate].
  intros [= <-]. simpl. auto.
Qed.
End Explode.

(** C1, amended.  Take documents that each have an identifier and a name,
    at most one url match, k >= 1 api matches and as many api types.
    Extraction followed by explosion of their frame succeeds, and every
    document contributes exactly its k rows, in document order: each
    carries the identifier, the name and the url (or null) of the
    document, and the j-th row pairs the j-th api with the j-th api type
    (never a cross join). *)
Theorem C1_paired_fields_explode_index_wise
        (ds : list document) (Hregular : Forall regular_document ds) :
  (exists infos df,
      mapM Py03.extract_repository_info ds = Ok infos /\
      Py03.explode infos = Ok df /\
      Pandas.rows df = document_table 0 ds) /\
  (forall label d,
      In d ds -> length (document_rows label d) = length (xpath d "//api/text()")).
Proof.
  split.
  - destruct (extract_regular ds Hregular) as (infos & Hinfos & Hreg & Htab).
    destruct (explode_regular infos Hreg) as (df & Hdf & Hrows).
    exists infos, df. repeat split; [assumption | assumption |].
    now rewrite Hrows, Htab.
  - intros label d Hd. rewrite Forall_forall in Hregular.
    destruct (Hregular d Hd) as (_ & _ & _ & _ & Hlen).
    unfold document_rows. rewrite length_map, length_combine, <- Hlen.
    apply Nat.min_id.
Qed.

Lemma C1_witness :
  exists infos df,
    mapM Py03.extract_repository_info [doc_one_api; doc_scenario_A2] = Ok infos /\
    Py03.explode infos = Ok df /\
    Pandas.rows df
    = [ (0, [ Pandas.Str "r3d100000008"; Pandas.Str "R8"; Pandas.NaN;
              Pandas.Str "https://r8.example.org/oai"; Pandas.Str "OAI-PMH" ]);
        (1, [ Pandas.Str "r3d100000002"; Pandas.Str "R2";
              Pandas.Str "https://r2.example.org/";
              Pandas.Str "a"; Pandas.Str "REST" ]);
        (1, [ Pandas.Str "r3d100000002"; Pandas.Str "R2";
              Pandas.Str "https://r2.example.org/";
              Pandas.Str "b"; Pandas.Str "OAI-PMH" ]) ].
Proof.
  assert (Hregular : Forall regular_document [doc_one_api; doc_scenario_A2]).
  { repeat constructor; simpl; try discriminate; lia. }
  exact (proj1 (C1_paired_fields_explode_index_wise _ Hregular)).
Defined.

(** A document with one api, one api type and two url matches explodes
    into two rows. *)
Lemma C1_counterexample : ~ paired_explosion_as_specified doc_two_urls.
Proof.
  intros H.
  destruct (H 1 (le_n 1) eq_refl eq_refl)
    as (i & df & id & nm & u & Hi & Hdf & Hlen & _).
  injection Hi as <-.
  vm_compute in Hdf. injection Hdf as <-.
  discriminate Hlen.
Qed.

(** ** Mismatched counts of api and api type *)

(** The frame of scenario D (three apis, two api types) does not
    explode. *)
Lemma C4_counterexample : ~ ragged_padding_as_specified doc_scenario_D.
Proof.
  intros H.
  destruct H as (i & df & Hi & Hdf & _); [simpl; discriminate|].
  injection Hi as <-.
  vm_compute in Hdf. discriminate Hdf.
Qed.

(** C4, amended.  When a document has at least two api matches and at
    least two api types, in different numbers, the explosion of any frame
    that contains its record raises ValueError: no row is produced for any
    document, nothing is padded with nulls, and no warning is recorded. *)
Theorem C4_ragged_group_raises
        (d : document) (i : Py03.info) (before after : list Py03.info)
        (Hextract : Py03.extract_repository_info d = Ok i)
        (Hapi : 2 <= length (xpath d "//api/text()"))
        (Htype : 2 <= length (xpath d "//@apitype"))
        (Hragged : length (xpath d "//api/text()") <> length (xpath d "//@apitype")) :
  Py03.explode (before ++ i :: after) = Raise ValueError.
Proof.
  destruct (extract_Ok_fields d i Hextract) as (_ & Ea & Et).
  apply (explode_ragged _ i).
  - apply in_elt.
  - now rewrite Ea.
  - now rewrite Et.
  - now rewrite Ea, Et.
Qed.

Lemma C4_witness :
  exists i r2,
    Py03.extract_repository_info doc_scenario_D = Ok i /\
    Py03.extract_repository_info doc_scenario_A2 = Ok r2 /\
    Py03.explode [r2; i] = Raise ValueError.
Proof.
  eexists; eexists.
  split; [reflexivity|]. split; [reflexivity|].
  apply (C4_ragged_group_raises doc_scenario_D _ [_] [] eq_refl);
    simpl; [lia | lia | discriminate].
Defined.

(** Scenario A of the specification in use case 3: the repository without
    API is left out by the loop, the other one gives two rows under its
    own label (here with the sort that leaves rows with the same
    identifier in their order). *)
Example scenario_A_use_case_3 :
  Py03.repository_info (world_of site_up) stable_argsort ["R4"; "R2"]
  = Ok {| Pandas.columns := ["re3data_id"; "name"; "url"; "api"; "api_type"];
          Pandas.rows :=
            [ (0, [ Pandas.Str "r3d100000002"; Pandas.Str "R2";
                    Pandas.Str "https://r2.example.org/";
                    Pandas.Str "a"; Pandas.Str "REST" ]);
              (0, [ Pandas.Str "r3d100000002"; Pandas.Str "R2";
                    Pandas.Str "https://r2.example.org/";
                    Pandas.Str "b"; Pandas.Str "OAI-PMH" ]) ] |}.
Proof. reflexivity. Qed.

(** ** Deduplication *)

Section KeepFirstFacts.
Context {A K : Type}.
Variable key_eq_dec : forall x y : K, {x = y} + {x <> y}.
Variable key : A -> K.

Lemma keep_first_In (seen : list K) (l : list A) (x : A) :
  In x (keep_first key_eq_dec key seen l) -> In x l /\ ~ In (key x) seen.
Proof.
  revert seen; induction l as [|y l IH]; intros seen; simpl; [contradiction|].
  destruct (in_dec key_eq_dec (key y) seen) as [Hy|Hy].
  - intros H. apply IH in H as [H1 H2]. auto.
  - intros [<-|H]; [auto|].
    apply IH in H as [H1 H2]. split; [auto|].
    intros H3. apply H2. now right.
Qed.

Lemma keep_first_NoDup (seen : list K) (l : list A) :
  NoDup (map key (keep_first key_eq_dec key seen l)).
Proof.
  revert seen; induction l as [|y l IH]; intros seen; simpl; [constructor|].
  destruct (in_dec key_eq_dec (key y) seen) as [Hy|Hy]; [apply IH|].
  simpl. constructor; [|apply IH].
  intros H. apply in_map_iff in H as (x & Hx & Hin).
  apply keep_first_In in Hin as [_ Hin]. apply Hin. now left.
Qed.

Lemma keep_first_fixed (seen : list K) (l : list A) :
  NoDup (map key l) ->
  (forall x, In x l -> ~ In (key x) seen) ->
  keep_first key_eq_dec key seen l = l.
Proof.
  revert seen; induction l as [|y l IH]; intros seen Hnd Hseen; simpl; [reflexivity|].
  simpl in Hnd. inversion Hnd as [|? ? Hy Hl]; subst.
  destruct (in_dec key_eq_dec (key y) seen) as [H|_].
  - elim (Hseen y (or_introl eq_refl) H).
  - f_equal. apply IH; [assumption|].
    intros x Hx [Heq|Hin].
    + apply Hy. rewrite Heq. now apply in_map.
    + apply (Hseen x); [now right | assumption].
Qed.

(** Keeping first occurrences twice is keeping them once. *)
Lemma keep_first_idempotent (l : list A) :
  keep_first key_eq_dec key [] (keep_first key_eq_dec key [] l)
  = keep_first key_eq_dec key [] l.
Proof.
  apply keep_first_fixed; [apply keep_first_NoDup | intros x _ []].
Qed.

(** Every key of the list is still there, unless it had been seen. *)
Lemma keep_first_complete (seen : list K) (l : list A) (x : A) :
  In x l -> ~ In (key x) seen ->
  exists y, In y (keep_first key_eq_dec key seen l) /\ key y = key x.
Proof.
  revert seen; induction l as [|z l IH]; intros seen; simpl; [contradiction|].
  intros [->|Hin] Hseen.
  - destruct (in_dec key_eq_dec (key x) seen); [contradiction|].
    exists x. split; [now left | reflexivity].
  - destruct (in_dec key_eq_dec (key z) seen) as [Hz|Hz]; [now apply IH|].
    destruct (key_eq_dec (key z) (key x)) as [Heq|Hne].
    + exists z. split; [now left | assumption].
    + destruct (IH (key z :: seen) Hin) as (y & Hy & Hk).
      * intros [H|H]; [contradiction | contradiction].
      * exists y. split; [now right | assumption].
Qed.

Lemma NoDup_map_filter (f : A -> bool) (l : list A) :
  NoDup (map key l) -> NoDup (map key (filter f l)).
Proof.
  induction l as [|y l IH]; simpl; intros Hnd; [constructor|].
  inversion Hnd as [|? ? Hy Hl]; subst.
  destruct (f y); simpl; [|auto].
  constructor; [|auto].
  intros H. apply Hy. apply in_map_iff in H as (x & Hx & Hin).
  apply filter_In in Hin as [Hin _]. rewrite <- Hx. now apply in_map.
Qed.

Lemma NoDup_map_finer {V} (g : A -> V) (l : list A) :
  NoDup (map key l) ->
  (forall x y, In x l -> In y l -> g x = g y -> key x = key y) ->
  NoDup (map g l).
Proof.
  induction l as [|y l IH]; simpl; intros Hnd Hg; [constructor|].
  inversion Hnd as [|? ? Hy Hl]; subst.
  constructor.
  - intros H. apply Hy. apply in_map_iff in H as (x & Hx & Hin).
    rewrite <- (Hg x y); [now apply in_map | now right | now left | assumption].
  - apply IH; [assumption|]. intros x z Hx Hz. apply Hg; now right.
Qed.
End KeepFirstFacts.

Lemma rows_with_In (p : nat) (id : Pandas.cell) (rows : list (nat * list Pandas.cell))
      (r : nat * list Pandas.cell) :
  In r (rows_with p id rows) <-> In r rows /\ Pandas.at_pos p r = id.
Proof.
  unfold rows_with. rewrite filter_In.
  destruct (Pandas.cell_eq_dec (Pandas.at_pos p r) id); intuition discriminate.
Qed.

(** A repository with apis and no api type keeps one row, and no api
    type is present for it. *)
Lemma C6_counterexample :
  (exists i,
      Py03.extract_repository_info doc_api_without_type = Ok i /\
      Py03.explode [i] = Ok frame_api_without_type) /\
  ~ dedup_bound_as_specified frame_api_without_type "api_type".
Proof.
  split; [eexists; split; reflexivity|].
  intros H.
  specialize (H _ 0 4 (Pandas.Str "r3d100000012") eq_refl eq_refl eq_refl).
  vm_compute in H. lia.
Qed.

(** C6, amended.  Deduplicating a frame on the columns (re3data_id, field)
    leaves, for every identifier, at most as many rows as the frame has
    distinct values of [field] in the rows of that identifier, a missing
    value counting as one value, and deduplicating the result again on
    the same columns returns it unchanged. *)
Theorem C6_drop_duplicates_bounded_and_idempotent
        (df df' : Pandas.DataFrame) (field : string)
        (Hdedup : Pandas.drop_duplicates df ["re3data_id"; field] = Ok df') :
  (forall p q id,
      Pandas.loc (Pandas.columns df) "re3data_id" = Ok p ->
      Pandas.loc (Pandas.columns df) field = Ok q ->
      length (rows_with p id (Pandas.rows df'))
      <= distinct_values q (rows_with p id (Pandas.rows df))) /\
  Pandas.drop_duplicates df' ["re3data_id"; field] = Ok df'.
Proof.
  unfold Pandas.drop_duplicates in *. simpl in Hdedup.
  destruct (Pandas.loc (Pandas.columns df) "re3data_id") as [p0|] eqn:Ep;
    [simpl in Hdedup | discriminate].
  destruct (Pandas.loc (Pandas.columns df) field) as [q0|] eqn:Eq;
    [simpl in Hdedup | discriminate].
  injection Hdedup as <-. simpl. rewrite Ep, Eq. simpl.
  split.
  - intros p q id [= <-] [= <-].
    set (key := Pandas.key_of [p0; q0]).
    set (kept := keep_first (list_eq_dec Pandas.cell_eq_dec) key [] (Pandas.rows df)).
    unfold distinct_values.
    rewrite <- (length_map (Pandas.at_pos q0) (rows_with p0 id kept)).
    apply NoDup_incl_length.
    + apply (NoDup_map_finer key).
      * apply NoDup_map_filter. apply keep_first_NoDup.
      * intros x y Hx Hy Hxy.
        apply rows_with_In in Hx as [_ Hx]. apply rows_with_In in Hy as [_ Hy].
        unfold key, Pandas.key_of. simpl. now rewrite Hx, Hy, Hxy.
    + intros v Hv. apply in_map_iff in Hv as (r & <- & Hr).
      apply rows_with_In in Hr as [Hr Hid].
      apply keep_first_In in Hr as [Hr _].
      apply nodup_In. apply in_map. apply rows_with_In. auto.
  - now rewrite keep_first_idempotent.
Qed.

Lemma C6_witness :
  (exists i,
      Py03.extract_repository_info doc_same_type_twice = Ok i /\
      Py03.explode [i] = Ok frame_same_type_twice) /\
  Py03.plotted frame_same_type_twice = Ok frame_one_type /\
  length (rows_with 0 (Pandas.Str "r3d100000009") (Pandas.rows frame_one_type))
  <= distinct_values 4 (rows_with 0 (Pandas.Str "r3d100000009")
                                  (Pandas.rows frame_same_type_twice)) /\
  Py03.plotted frame_one_type = Ok frame_one_type.
Proof.
  split; [eexists; split; reflexivity|].
  split; [reflexivity|].
  destruct (C6_drop_duplicates_bounded_and_idempotent
              frame_same_type_twice frame_one_type "api_type" eq_refl)
    as [Hle Hidem].
  split; [|exact Hidem].
  exact (Hle 0 4 (Pandas.Str "r3d100000009") eq_refl eq_refl).
Defined.

(** ** Joining with a separator and cutting at it (use case 2, R) *)

Section SplitJoin.
Import R.

Lemma append_assoc (a b c : string) :
  String.append (String.append a b) c = String.append a (String.append b c).
Proof. induction a as [|x a IH]; simpl; congruence. Qed.

Lemma append_empty_r (a : string) : String.append a EmptyString = a.
Proof. induction a as [|x a IH]; simpl; congruence. Qed.

Lemma length_append (a b : string) :
  String.length (String.append a b) = String.length a + String.length b.
Proof. induction a as [|x a IH]; simpl; congruence. Qed.

Lemma prefix_append (sep rest : string) :
  String.prefix sep (String.append sep rest) = true.
Proof.
  induction sep as [|a sep IH]; simpl; [now destruct rest|].
  destruct (ascii_dec a a) as [_|Hne]; [exact IH | now elim Hne].
Qed.

(** [prefix sep] only reads as many characters as [sep] has. *)
Lemma prefix_short (sep y z : string) :
  String.length sep <= String.length y ->
  String.prefix sep (String.append y z) = String.prefix sep y.
Proof.
  revert y; induction sep as [|a sep IH]; intros y Hlen.
  - destruct y; destruct z; reflexivity.
  - destruct y as [|b y]; simpl in *; [lia|].
    destruct (ascii_dec a b); [apply IH; lia | reflexivity].
Qed.

Lemma prefix_mono (sep y z : string) :
  String.prefix sep y = true -> String.prefix sep (String.append y z) = true.
Proof.
  revert y; induction sep as [|a sep IH]; intros y.
  - intros _. now destruct (String.append y z).
  - destruct y as [|b y]; simpl; [discriminate|].
    destruct (ascii_dec a b); [apply IH | discriminate].
Qed.

Lemma split_skip (sep u cur rest : string) :
  split_from sep (String.length u) cur (String.append u rest)
  = split_from sep 0 cur rest.
Proof.
  induction u as [|c u IH]; simpl; [|exact IH].
  destruct rest; reflexivity.
Qed.

Lemma split_at_separator (sep cur rest : string) :
  sep <> EmptyString ->
  split_from sep 0 cur (String.append sep rest)
  = cur :: split_from sep 0 EmptyString rest.
Proof.
  intros Hsep. destruct sep as [|c0 sep']; [now elim Hsep|].
  pose proof (prefix_append (String c0 sep') rest) as Hp.
  change (String.append (String c0 sep') rest)
    with (String c0 (String.append sep' rest)) in *.
  cbn [split_from]. rewrite Hp. f_equal.
  change (String.length (String c0 sep') - 1) with (String.length sep' - 0).
  rewrite Nat.sub_0_r. apply split_skip.
Qed.

Lemma sep_free_cons (sep : string) (c : ascii) (v : string) :
  sep_free sep (String c v) = true ->
  String.prefix sep (String.append (String c v) sep) = false
  /\ sep_free sep v = true.
Proof.
  simpl. intros H. apply andb_true_iff in H as [H1 H2].
  apply negb_true_iff in H1. auto.
Qed.

(** Inside a separator-free value nothing is cut. *)
Lemma split_value_then_separator (sep v cur more : string) :
  sep_free sep v = true ->
  split_from sep 0 cur (String.append v (String.append sep more))
  = split_from sep 0 (String.append cur v) (String.append sep more).
Proof.
  revert cur; induction v as [|c v IH]; intros cur Hfree.
  - simpl. now rewrite append_empty_r.
  - apply sep_free_cons in Hfree as [Hp Hfree].
    assert (Hp' : String.prefix sep (String.append (String c v) (String.append sep more))
                  = false).
    { rewrite <- append_assoc, prefix_short; [exact Hp|].
      rewrite length_append. lia. }
    change (String.append (String c v) (String.append sep more))
      with (String c (String.append v (String.append sep more))) in *.
    cbn [split_from]. rewrite Hp'. rewrite IH by assumption.
    now rewrite append_assoc.
Qed.

Lemma split_last_value (sep v cur : string) :
  sep_free sep v = true ->
  split_from sep 0 cur v = [String.append cur v].
Proof.
  revert cur; induction v as [|c v IH]; intros cur Hfree.
  - simpl. now rewrite append_empty_r.
  - apply sep_free_cons in Hfree as [Hp Hfree].
    cbn [split_from].
    destruct (String.prefix sep (String c v)) eqn:E.
    + apply (prefix_mono _ _ sep) in E. congruence.
    + rewrite IH by assumption. now rewrite append_assoc.
Qed.

(** Cutting the joined values at the separator gives the values back. *)
Lemma split_join (sep : string) (vs : list string) :
  sep <> EmptyString ->
  vs <> [] ->
  Forall (fun v => sep_free sep v = true) vs ->
  str_split (paste_collapse vs sep) sep = vs.
Proof.
  intros Hsep Hne Hfree. unfold str_split, paste_collapse.
  destruct vs as [|v vs]; [now elim Hne|]. clear Hne.
  change v with (String.append EmptyString v) at 2.
  generalize EmptyString as cur.
  revert v Hfree; induction vs as [|v2 vs IH]; intros v Hfree cur.
  - simpl. apply split_last_value. now inversion Hfree.
  - inversion Hfree as [|? ? Hv Hrest]; subst.
    change (String.concat sep (v :: v2 :: vs))
      with (String.append v (String.append sep (String.concat sep (v2 :: vs)))).
    rewrite split_value_then_separator by assumption.
    rewrite split_at_separator by assumption.
    f_equal. apply (IH v2 Hrest EmptyString).
Qed.
End SplitJoin.

(** ** [unique] *)

Lemma unique_In (l : list string) (x : string) : In x (R.unique l) <-> In x l.
Proof.
  unfold R.unique. split.
  - intros H. now apply keep_first_In in H.
  - intros H.
    destruct (keep_first_complete string_dec (fun s => s) [] l x H) as (y & Hy & ->);
      [intros [] | assumption].
Qed.

Lemma unique_NoDup (l : list string) : NoDup (R.unique l).
Proof.
  unfold R.unique.
  rewrite <- (map_id (keep_first string_dec (fun s => s) [] l)).
  apply keep_first_NoDup.
Qed.

(** [unique] has as many elements as the vector has distinct values. *)
Lemma unique_length (l : list string) :
  length (R.unique l) = length (nodup string_dec l).
Proof.
  apply Nat.le_antisymm; apply NoDup_incl_length.
  - apply unique_NoDup.
  - intros x Hx. apply nodup_In. now apply unique_In.
  - apply NoDup_nodup.
  - intros x Hx. apply unique_In. now apply nodup_In in Hx.
Qed.

Lemma keep_first_remove (x : string) (l : list string) :
  forall seen1 seen2 : list string,
    (forall k, In k seen1 <-> k = x \/ In k seen2) ->
    keep_first string_dec (fun s => s) seen1 l
    = keep_first string_dec (fun s => s) seen2 (remove string_dec x l).
Proof.
  induction l as [|y l IH]; intros seen1 seen2 Hseen; simpl; [reflexivity|].
  destruct (string_dec x y) as [<-|Hxy].
  - destruct (in_dec string_dec x seen1) as [_|Hno]; [now apply IH|].
    elim Hno. apply Hseen. now left.
  - simpl.
    destruct (in_dec string_dec y seen1) as [H1|H1];
      destruct (in_dec string_dec y seen2) as [H2|H2].
    + now apply IH.
    + apply Hseen in H1 as [H1|H1]; [congruence | contradiction].
    + elim H1. apply Hseen. now right.
    + f_equal. apply IH. intros k. simpl. rewrite Hseen. tauto.
Qed.

(** [unique] keeps a value where it first occurs and drops it further on:
    the result lists the distinct values in the order of their first
    occurrence. *)
Lemma unique_cons (x : string) (l : list string) :
  R.unique (x :: l) = x :: R.unique (remove string_dec x l).
Proof.
  unfold R.unique. simpl. f_equal. apply keep_first_remove.
  intros k. simpl. intuition.
Qed.

Lemma unique_nonempty (l : list string) : l <> [] -> R.unique l <> [].
Proof. destruct l; [congruence | discriminate]. Qed.

Lemma unique_Forall (P : string -> Prop) (l : list string) :
  Forall P l -> Forall P (R.unique l).
Proof.
  rewrite !Forall_forall. intros H x Hx. apply H. now apply unique_In.
Qed.

Lemma concat_empty (sep : string) (vs : list string) :
  sep <> EmptyString -> vs <> [] ->
  String.concat sep vs = EmptyString -> vs = [EmptyString].
Proof.
  intros Hsep Hne. destruct vs as [|v [|v2 vs]]; [now elim Hne | simpl; congruence |].
  change (String.concat sep (v :: v2 :: vs))
    with (String.append v (String.append sep (String.concat sep (v2 :: vs)))).
  destruct v; [|discriminate]. destruct sep; [now elim Hsep | discriminate].
Qed.

(** ** The rows of one document in use case 2 *)

Lemma R02_rows_of_document (d : document) (i : string) :
  xpath d "//r3d:re3data.orgIdentifier" = [i] ->
  R02_document_rows d
  = Ok (R02.process
          [ {| R02.re3data_ID := R.chr i;
               R02.type :=
                 R.chr (R.paste_collapse (R.unique (xpath d "//r3d:type")) "_AND_");
               R02.certificate :=
                 R.chr (R.paste_collapse (R.unique (xpath d "//r3d:certificate")) "_AND_") |} ]).
Proof.
  intros Hid. unfold R02_document_rows, R02.rbind, R02.extract_repository_info.
  simpl. rewrite Hid. reflexivity.
Qed.

Lemma R02_process_app (a b : list R02.row) :
  R02.process (a ++ b) = R02.process a ++ R02.process b.
Proof.
  unfold R02.process, R02.separate_rows, R02.mutate_certificate, R02.mutate_all_na_if.
  now rewrite !map_app, flat_map_app.
Qed.

(** The table of use case 2 is the concatenation, in the order of the
    URLs, of the rows of each document. *)
Lemma R02_table_by_document (w : world) (URLs : list string) :
  R02.repository_info w URLs
  = bind (mapM (fun url => bind (fetch w url) R02_document_rows) URLs)
         (fun bs => Ok (concat bs)).
Proof.
  unfold R02.repository_info, R02.gather.
  change (@concat R02.row) with (fun bs => R02.process [] ++ @concat R02.row bs).
  generalize (@nil R02.row) as acc.
  induction URLs as [|url URLs IH]; intros acc; simpl.
  - now rewrite app_nil_r.
  - unfold R02.loop_body at 1.
    destruct (fetch w url) as [d|e]; simpl; [|reflexivity].
    unfold R02_document_rows, R02.rbind.
    destruct (R02.l_re3data_ID (R02.extract_repository_info d)) as [|i [|i' ids]];
      simpl; try reflexivity.
    + rewrite IH. destruct (mapM _ URLs) as [bs|e]; reflexivity.
    + rewrite IH.
      destruct (mapM _ URLs) as [bs|e]; simpl; [|reflexivity].
      now rewrite R02_process_app, <- app_assoc.
Qed.

(** C8.  A document with the type entries "institutional" and "other" and
    no certificate entry (and one identifier) yields exactly two rows in
    use case 2, one per type value and in that order, and the certificate
    column is FALSE in both. *)
Theorem C8_two_types_no_certificate
        (d : document) (i : string)
        (Hid : xpath d "//r3d:re3data.orgIdentifier" = [i])
        (Htypes : xpath d "//r3d:type" = ["institutional"; "other"])
        (Hcertificates : xpath d "//r3d:certificate" = []) :
  let expected :=
      [ {| R02.re3data_ID := R.na_if (R.chr i) "";
           R02.type := R.chr "institutional";
           R02.certificate := R.lgl false |};
        {| R02.re3data_ID := R.na_if (R.chr i) "";
           R02.type := R.chr "other";
           R02.certificate := R.lgl false |} ] in
  R02_document_rows d = Ok expected /\
  forall w url, fetch w url = Ok d -> R02.repository_info w [url] = Ok expected.
Proof.
  assert (H : R02_document_rows d
              = Ok [ {| R02.re3data_ID := R.na_if (R.chr i) "";
                        R02.type := R.chr "institutional";
                        R02.certificate := R.lgl false |};
                     {| R02.re3data_ID := R.na_if (R.chr i) "";
                        R02.type := R.chr "other";
                        R02.certificate := R.lgl false |} ]).
  { rewrite (R02_rows_of_document d i Hid), Htypes, Hcertificates. reflexivity. }
  split; [exact H|].
  intros w url Hfetch.
  rewrite R02_table_by_document. simpl. rewrite Hfetch. simpl. rewrite H.
  reflexivity.
Qed.

Lemma C8_witness :
  R02.repository_info (world_of site_up) ["R5"]
  = Ok [ {| R02.re3data_ID := R.chr "r3d100000003";
            R02.type := R.chr "institutional";
            R02.certificate := R.lgl false |};
         {| R02.re3data_ID := R.chr "r3d100000003";
            R02.type := R.chr "other";
            R02.certificate := R.lgl false |} ].
Proof.
  exact (proj2 (C8_two_types_no_certificate doc_scenario_C "r3d100000003"
                  eq_refl eq_refl eq_refl)
               (world_of site_up) "R5" eq_refl).
Defined.

(** The rows of a document with one identifier, by the text of its
    [type] cell. *)
Lemma R02_rows_by_type_cell (d : document) (i : string) :
  xpath d "//r3d:re3data.orgIdentifier" = [i] ->
  let types := R.paste_collapse (R.unique (xpath d "//r3d:type")) "_AND_" in
  let certificates :=
      R.paste_collapse (R.unique (xpath d "//r3d:certificate")) "_AND_" in
  let certified :=
      R.lgl (if string_dec certificates "" then false else true) in
  R02_document_rows d
  = Ok (if string_dec types ""
        then [ {| R02.re3data_ID := R.na_if (R.chr i) "";
                  R02.type := R.NA;
                  R02.certificate := certified |} ]
        else map (fun t => {| R02.re3data_ID := R.na_if (R.chr i) "";
                              R02.type := R.chr t;
                              R02.certificate := certified |})
                 (R.str_split types "_AND_")).
Proof.
  intros Hid types certificates certified.
  rewrite (R02_rows_of_document d i Hid). f_equal.
  fold types certificates.
  unfold R02.process, R02.mutate_all_na_if, R02.mutate_certificate,
    R02.separate_rows, R02.separate_row.
  cbn [map flat_map R02.type R02.certificate R02.re3data_ID].
  unfold certified. cbn [R.na_if].
  destruct (string_dec types "") as [Et|Et];
    destruct (string_dec certificates "") as [Ec|Ec];
    cbn [R.is_na]; now rewrite app_nil_r.
Qed.

(** No row per distinct type value without any type value. *)
Lemma C10_counterexample : ~ rows_per_distinct_type_as_specified doc_no_type.
Proof.
  intros (rows & Hrows & Hlen).
  vm_compute in Hrows. injection Hrows as <-. discriminate Hlen.
Qed.

(** C10, amended.  In use case 2 the type values pass through [unique]
    before they are joined with "_AND_".  Take a document with exactly one
    identifier and at least one type value, in which no match of "_AND_"
    starts inside a type value once that value is followed by "_AND_"
    (a value such as "a_AND" is excluded).  Then
    the number of rows is the number of distinct type values, not the
    number of type elements.  The rows carry the distinct values in the
    order of their first occurrence; the one exception is a document
    whose only distinct type value is the empty text: its single row has
    a missing type. *)
Theorem C10_one_row_per_distinct_type
        (d : document) (i : string)
        (Hid : xpath d "//r3d:re3data.orgIdentifier" = [i])
        (Htypes : xpath d "//r3d:type" <> [])
        (Hfree : Forall (fun v => sep_free "_AND_" v = true) (xpath d "//r3d:type")) :
  exists rows,
    R02_document_rows d = Ok rows /\
    length rows = length (nodup string_dec (xpath d "//r3d:type")) /\
    (R.unique (xpath d "//r3d:type") <> [""] ->
     map R02.type rows = map R.chr (R.unique (xpath d "//r3d:type"))) /\
    (R.unique (xpath d "//r3d:type") = [""] -> map R02.type rows = [R.NA]).
Proof.
  rewrite (R02_rows_by_type_cell d i Hid). cbv zeta.
  rewrite <- unique_length.
  pose proof (unique_nonempty _ Htypes) as Hne.
  pose proof (unique_Forall _ _ Hfree) as Hfree'.
  set (types := R.unique (xpath d "//r3d:type")) in *.
  eexists. split; [reflexivity|].
  destruct (string_dec (R.paste_collapse types "_AND_") "") as [E|E].
  - apply concat_empty in E; [|discriminate|assumption].
    rewrite E. split; [reflexivity|]. split; [congruence | reflexivity].
  - rewrite split_join; [|discriminate|assumption|assumption].
    rewrite length_map, map_map. split; [reflexivity|].
    split; [reflexivity|]. intros E'. elim E. now rewrite E'.
Qed.

Lemma C10_witness :
  sep_free "_AND_" "a_AND" = false /\
  exists rows,
    R02_document_rows doc_repeated_type = Ok rows /\
    length rows = 2 /\
    map R02.type rows = [R.chr "disciplinary"; R.chr "other"].
Proof.
  split; [reflexivity|].
  destruct (C10_one_row_per_distinct_type doc_repeated_type "r3d100000006" eq_refl)
    as (rows & Hrows & Hlen & Htypes & _).
  - discriminate.
  - repeat constructor.
  - exists rows. split; [exact Hrows|]. split; [exact Hlen|].
    apply Htypes. discriminate.
Defined.

(** ** Documents without any occurrence of the repeated field *)

(** C5.  A document with no occurrence of the repeated field still yields
    exactly one record.  In use case 2 a document without type value (and
    with one identifier) contributes exactly one row, whose type is
    missing.  In use case 3 the extractor returns exactly one record for a
    document without api and api type (with identifier and name), its api
    and api type cells explode to one missing value each, and with at most
    one url the record explodes to one row with missing api and api
    type.  The extractor does not drop the document: it is the loop of
    the notebook, its caller, that leaves such a record out of the
    results. *)
Theorem C5_no_occurrence_one_record
        (d2 d3 : document) (i id nm : string) (ids nms : list string)
        (Hid2 : xpath d2 "//r3d:re3data.orgIdentifier" = [i])
        (Htype2 : xpath d2 "//r3d:type" = [])
        (Hid3 : xpath d3 "//re3data.orgidentifier/text()" = id :: ids)
        (Hnm3 : xpath d3 "//repositoryname/text()" = nm :: nms)
        (Hapi3 : xpath d3 "//api/text()" = [])
        (Htype3 : xpath d3 "//@apitype" = []) :
  (exists certified,
      R02_document_rows d2
      = Ok [ {| R02.re3data_ID := R.na_if (R.chr i) "";
                R02.type := R.NA;
                R02.certificate := R.lgl certified |} ]) /\
  (exists r,
      Py03.extract_repository_info d3 = Ok r /\
      Pandas.explode_cell (Pandas.Lst (Py03.api r)) = [Pandas.NaN] /\
      Pandas.explode_cell (Pandas.Lst (Py03.api_type r)) = [Pandas.NaN] /\
      (length (xpath d3 "//repositoryurl/text()") <= 1 ->
       Py03.explode [r]
       = Ok {| Pandas.columns := ["re3data_id"; "name"; "url"; "api"; "api_type"];
               Pandas.rows :=
                 [ (0, [ Pandas.Str id; Pandas.Str nm;
                         Py03Rows.first_or_nan (xpath d3 "//repositoryurl/text()");
                         Pandas.NaN; Pandas.NaN ]) ] |}) /\
      forall w url results,
        fetch w url = Ok d3 -> Py03.loop_body w results url = Ok results).
Proof.
  split.
  - rewrite (R02_rows_by_type_cell d2 i Hid2), Htype2. cbv zeta.
    eexists. reflexivity.
  - eexists. split; [apply (extract_present d3 id nm ids nms Hid3 Hnm3)|].
    rewrite Hapi3, Htype3. split; [reflexivity|]. split; [reflexivity|]. split.
    + intros Hurl3.
      destruct (xpath d3 "//repositoryurl/text()") as [|u [|u' us]];
        [reflexivity | reflexivity | simpl in Hurl3; lia].
    + intros w url results Hfetch. unfold Py03.loop_body.
      rewrite Hfetch. simpl.
      rewrite (extract_present d3 id nm ids nms Hid3 Hnm3), Hapi3. reflexivity.
Qed.

Lemma C5_witness :
  (exists certified,
      R02_document_rows doc_no_type
      = Ok [ {| R02.re3data_ID := R.chr "r3d100000007";
                R02.type := R.NA;
                R02.certificate := R.lgl certified |} ]) /\
  (exists r,
      Py03.extract_repository_info doc_no_api = Ok r /\
      Py03.explode [r]
      = Ok {| Pandas.columns := ["re3data_id"; "name"; "url"; "api"; "api_type"];
              Pandas.rows :=
                [ (0, [ Pandas.Str "r3d100000005"; Pandas.Str "R5";
                        Pandas.Str "https://r5.example.org/";
                        Pandas.NaN; Pandas.NaN ]) ] |} /\
      Py03.results (world_of site_up) ["R4"] = Ok []).
Proof.
  destruct (C5_no_occurrence_one_record
              doc_no_type doc_no_api "r3d100000007" "r3d100000005" "R5" [] []
              eq_refl eq_refl eq_refl eq_refl eq_refl eq_refl)
    as (H2 & r & Hr & _ & _ & Hexplode & Hloop).
  split; [exact H2|].
  exists r. split; [exact Hr|]. split; [exact (Hexplode (le_n 1))|].
  exact (Hloop (world_of site_up) "R4" [] eq_refl).
Defined.

(** * Further properties of the notebooks *)

(** ** What can end a run *)

Lemma mapM_Raise_inv {A B} (f : A -> result B) (xs : list A) (e : exn) :
  mapM f xs = Raise e -> exists x, In x xs /\ f x = Raise e.
Proof.
  induction xs as [|x xs IH]; simpl; [discriminate|].
  destruct (f x) as [y|e'] eqn:Ex; simpl.
  - destruct (mapM f xs) as [ys|e'']; simpl; [discriminate|].
    intros [= <-]. destruct (IH eq_refl) as (x' & Hin & Hx').
    exists x'. auto.
  - intros [= <-]. exists x. auto.
Qed.

(** X1.  The results of the loop of use case 3 hold only records with at
    least one api, and at most one record per detail reference. *)
Theorem Py03_results_all_have_api
        (w : world) (urls : list string) (rs : list Py03.info)
        (Hrun : Py03.results w urls = Ok rs) :
  Forall (fun r => 1 <= length (Py03.api r)) rs /\ length rs <= length urls.
Proof.
  rewrite Py03_loop_mapM in Hrun.
  apply bind_Ok_inv in Hrun as (bs & Hbs & Hrs). injection Hrs as <-.
  apply mapM_Ok_iff in Hbs.
  induction Hbs as [|url b urls bs Hb _ [IH1 IH2]]; simpl; [split; [constructor | lia]|].
  unfold Py03_record in Hb.
  destruct (fetch w url) as [d|]; simpl in Hb; [|discriminate].
  destruct (Py03.extract_repository_info d) as [i|]; simpl in Hb; [|discriminate].
  injection Hb as <-.
  destruct (0 <? length (Py03.api i))%nat eqn:E; simpl.
  - apply Nat.ltb_lt in E. split; [constructor; [lia | assumption] | lia].
  - split; [assumption | lia].
Qed.

Lemma Py03_results_all_have_api_witness :
  exists rs,
    Py03.results (world_of site_up) ["R4"; "R2"] = Ok rs /\
    Forall (fun r => 1 <= length (Py03.api r)) rs /\ length rs <= 2.
Proof.
  eexists. split; [reflexivity|].
  exact (Py03_results_all_have_api (world_of site_up) ["R4"; "R2"] _ eq_refl).
Defined.

(** X2.  The loop of use case 3 ends with an exception only when a
    reference cannot be fetched or parsed, with that exception, or when a
    fetched document has no identifier or no name, with IndexError. *)
Theorem Py03_results_exception_origin
        (w : world) (urls : list string) (e : exn)
        (Hrun : Py03.results w urls = Raise e) :
  exists url,
    In url urls /\
    (fetch w url = Raise e
     \/ exists d,
        fetch w url = Ok d /\ e = IndexError /\
        (xpath d "//re3data.orgidentifier/text()" = []
         \/ xpath d "//repositoryname/text()" = [])).
Proof.
  rewrite Py03_loop_mapM in Hrun.
  destruct (mapM (Py03_record w) urls) as [bs|e0] eqn:E; [discriminate|].
  simpl in Hrun. injection Hrun as ->.
  apply mapM_Raise_inv in E as (url & Hin & Hurl).
  exists url. split; [assumption|].
  unfold Py03_record in Hurl.
  destruct (fetch w url) as [d|e1] eqn:Ef; simpl in Hurl; [right | left; injection Hurl as ->; reflexivity].
  exists d. split; [reflexivity|].
  unfold Py03.extract_repository_info in Hurl.
  destruct (xpath d "//re3data.orgidentifier/text()") as [|id ids]; simpl in Hurl.
  - injection Hurl as <-. auto.
  - destruct (xpath d "//repositoryname/text()") as [|nm nms]; simpl in Hurl.
    + injection Hurl as <-. auto.
    + destruct (0 <? _)%nat; discriminate.
Qed.

Lemma Py03_results_exception_origin_witness :
  exists url,
    In url ["R2"; "R3"; "R4"] /\
    (fetch (world_of site_up) url = Raise IndexError
     \/ exists d,
        fetch (world_of site_up) url = Ok d /\ IndexError = IndexError /\
        (xpath d "//re3data.orgidentifier/text()" = []
         \/ xpath d "//repositoryname/text()" = [])).
Proof.
  exact (Py03_results_exception_origin
           (world_of site_up) ["R2"; "R3"; "R4"] IndexError eq_refl).
Defined.

(** X3.  The loop of use case 1 (Python) never raises because of what a
    document contains: when it ends with an exception, a reference could
    not be fetched, parsed or parsed again, and the exception is that
    one. *)
Theorem Py01_exception_origin
        (w : world) (urls : list string) (e : exn)
        (Hrun : Py01.repository_info w urls = Raise e) :
  exists url,
    In url urls /\
    (fetch w url = Raise e
     \/ exists d, fetch w url = Ok d /\ reparse w d = Raise e).
Proof.
  rewrite Py01_loop_mapM in Hrun.
  apply mapM_Raise_inv in Hrun as (url & Hin & Hurl).
  exists url. split; [assumption|].
  unfold Py01_record in Hurl.
  destruct (fetch w url) as [d|e1] eqn:Ef; simpl in Hurl; [right | left; injection Hurl as ->; reflexivity].
  exists d. split; [reflexivity|].
  unfold Py01.extract_repository_info in Hurl.
  destruct (reparse w d); simpl in Hurl; [discriminate|].
  injection Hurl as ->. reflexivity.
Qed.

Lemma Py01_exception_origin_witness :
  exists url,
    In url ["R0"; "R1"; "R2"] /\
    (fetch (world_of site_R1_down) url = Raise TransportError
     \/ exists d,
        fetch (world_of site_R1_down) url = Ok d /\
        reparse (world_of site_R1_down) d = Raise TransportError).
Proof.
  exact (Py01_exception_origin
           (world_of site_R1_down) ["R0"; "R1"; "R2"] TransportError eq_refl).
Defined.

(** ** The explosion in general *)

Section ExplodeInGeneral.
Import Pandas Py03 Py03Rows.

Lemma Ok_inj {A} (a b : A) : Ok a = Ok b -> a = b.
Proof. now intros [= ->]. Qed.

Lemma cell_count_explode (l : list string) :
  length (explode_cell (Lst l)) = cell_count l.
Proof. apply explode_cell_Lst_length. Qed.

(** The explosion of a frame with at least one record, column by
    column: identifier and name are spread over the union index, whose
    groups are as large as the widest cell of each record. *)
Lemma explode_cons (r0 : info) (rs0 : list info) :
  let rs := r0 :: rs0 in
  let target := map widest rs in
  explode rs
  = bind (reindex target (map (fun r => explode_cell (Lst (url r))) rs))
      (fun cu =>
         bind (reindex target (map (fun r => explode_cell (Lst (api r))) rs))
           (fun ca =>
              bind (reindex target (map (fun r => explode_cell (Lst (api_type r))) rs))
                (fun ct =>
                   Ok {| columns := ["re3data_id"; "name"; "url"; "api"; "api_type"];
                         rows :=
                           assemble 0 target
                             [ map (fun r => repeat (Str (re3data_id r)) (widest r)) rs;
                               map (fun r => repeat (Str (name r)) (widest r)) rs;
                               cu; ca; ct ] |}))).
Proof.
  cbv zeta. unfold explode, DataFrame_of.
  set (rs := r0 :: rs0). set (target := map widest rs).
  unfold apply_explode. cbn [map snd fst].
  rewrite !explode_scalar_column. unfold Series_explode. rewrite !map_map.
  assert (Htarget :
            union_indexes
              (counts (map (fun r : info => [Str (re3data_id r)]) rs))
              [counts (map (fun r : info => [Str (name r)]) rs);
               counts (map (fun r : info => explode_cell (Lst (url r))) rs);
               counts (map (fun r : info => explode_cell (Lst (api r))) rs);
               counts (map (fun r : info => explode_cell (Lst (api_type r))) rs)]
            = target).
  { unfold union_indexes, counts, target. rewrite !map_map. cbn [fold_left].
    rewrite !zip_max_map. apply map_ext. intros r.
    rewrite !cell_count_explode. unfold widest, cell_count. cbn [length]. lia. }
  rewrite Htarget. cbn [mapM]. unfold target at 1 2.
  rewrite !reindex_singletons. cbn [bind]. fold target.
  destruct (reindex target (map (fun r => explode_cell (Lst (url r))) rs)) as [cu|];
    [cbn [bind] | reflexivity].
  destruct (reindex target (map (fun r => explode_cell (Lst (api r))) rs)) as [ca|];
    [cbn [bind] | reflexivity].
  destruct (reindex target (map (fun r => explode_cell (Lst (api_type r))) rs)) as [ct|];
    reflexivity.
Qed.

Lemma counts_of_list_column (f : info -> list string) (rs : list info) :
  counts (map (fun r => explode_cell (Lst (f r))) rs)
  = map (fun r => cell_count (f r)) rs.
Proof.
  unfold counts. rewrite map_map. apply map_ext. intros r. apply cell_count_explode.
Qed.




Lemma zip_groups_labels (label m : nat) (groups : list (list cell)) :
  map fst (zip_groups label m groups) = repeat label m.
Proof.
  revert groups; induction m as [|m IH]; intros groups; simpl; [reflexivity|].
  now rewrite IH.
Qed.

Lemma assemble_labels (target : list nat) :
  forall label cols, map fst (assemble label target cols) = labels_from label target.
Proof.
  induction target as [|m target IH]; intros label cols; simpl; [reflexivity|].
  now rewrite map_app, zip_groups_labels, IH.
Qed.

Lemma zip_groups_width (label m : nat) (groups : list (list cell)) :
  Forall (fun r => length (snd r) = length groups) (zip_groups label m groups).
Proof.
  revert groups; induction m as [|m IH]; intros groups; simpl; constructor.
  - simpl. apply length_map.
  - specialize (IH (map (@tl cell) groups)). now rewrite length_map in IH.
Qed.

Lemma assemble_width (target : list nat) :
  forall label cols,
    Forall (fun r => length (snd r) = length cols) (assemble label target cols).
Proof.
  induction target as [|m target IH]; intros label cols; simpl; [constructor|].
  apply Forall_app. split.
  - pose proof (zip_groups_width label m (map (hd []) cols)) as H.
    now rewrite length_map in H.
  - specialize (IH (S label) (map (@tl (list cell)) cols)).
    now rewrite length_map in IH.
Qed.

Lemma labels_from_length (ms : list nat) :
  forall label, length (labels_from label ms) = list_sum ms.
Proof.
  induction ms as [|m ms IH]; intros label; simpl; [reflexivity|].
  now rewrite length_app, repeat_length, IH.
Qed.

Lemma explode_shape (rs : list info) (df : DataFrame) :
  explode rs = Ok df ->
  map fst (rows df) = labels_from 0 (map widest rs)
  /\ Forall (fun r => length (snd r) = length (columns df)) (rows df)
  /\ (rs <> [] -> columns df = ["re3data_id"; "name"; "url"; "api"; "api_type"]).
Proof.
  destruct rs as [|r0 rs0].
  { intros [= <-]. simpl. repeat split; [constructor | congruence]. }
  rewrite explode_cons. cbv zeta. set (rs := r0 :: rs0).
  destruct (reindex _ _) as [cu|]; [cbn [bind] | discriminate].
  destruct (reindex _ _) as [ca|]; [cbn [bind] | discriminate].
  destruct (reindex _ _) as [ct|]; [cbn [bind] | discriminate].
  intros H. apply Ok_inj in H. subst df. cbn [rows columns].
  split; [apply assemble_labels|].
  split; [|reflexivity].
  change (length ["re3data_id"; "name"; "url"; "api"; "api_type"])
    with (length [ map (fun r => repeat (Str (re3data_id r)) (widest r)) rs;
                   map (fun r => repeat (Str (name r)) (widest r)) rs;
                   cu; ca; ct ]).
  apply assemble_width.
Qed.
End ExplodeInGeneral.


(** X5.  When the explosion succeeds, every record contributes as many
    rows as its longest list has elements (one row when all its lists are
    empty), under its own index label and in the order of the records;
    every row has one cell per column, and the five columns keep their
    names. *)
Theorem Py03_explode_shape
        (rs : list Py03.info) (df : Pandas.DataFrame)
        (Hexplode : Py03.explode rs = Ok df) :
  map fst (Pandas.rows df) = labels_from 0 (map widest rs)
  /\ length (Pandas.rows df) = list_sum (map widest rs)
  /\ Forall (fun r => length (snd r) = length (Pandas.columns df)) (Pandas.rows df)
  /\ (rs <> [] ->
      Pandas.columns df = ["re3data_id"; "name"; "url"; "api"; "api_type"]).
Proof.
  destruct (explode_shape rs df Hexplode) as (Hlabels & Hwidth & Hcols).
  split; [exact Hlabels|]. split; [|split; assumption].
  rewrite <- (length_map fst), Hlabels. apply labels_from_length.
Qed.

Lemma Py03_explode_shape_witness :
  exists i i' df,
    Py03.extract_repository_info doc_one_api = Ok i /\
    Py03.extract_repository_info doc_three_apis_one_type = Ok i' /\
    Py03.explode [i; i'] = Ok df /\
    map fst (Pandas.rows df) = [0; 1; 1; 1] /\
    length (Pandas.rows df) = 4.
Proof.
  eexists; eexists; eexists.
  split; [reflexivity|]. split; [reflexivity|]. split; [reflexivity|].
  match goal with
  | |- map fst (Pandas.rows ?df) = _ /\ _ =>
    destruct (Py03_explode_shape
                [ {| Py03.re3data_id := "r3d100000008"; Py03.name := "R8";
                     Py03.url := [];
                     Py03.api := ["https://r8.example.org/oai"];
                     Py03.api_type := ["OAI-PMH"] |};
                  {| Py03.re3data_id := "r3d100000010"; Py03.name := "R10";
                     Py03.url := ["https://r10.example.org/"];
                     Py03.api := ["a"; "b"; "c"];
                     Py03.api_type := ["REST"] |} ]
                df eq_refl) as (Hlabels & Hlen & _)
  end.
  split; [exact Hlabels | exact Hlen].
Defined.

Section Spread.
Import Pandas Py03 Py03Rows.

Lemma explode_short_column (f : info -> list string) (rs : list info) :
  Forall (fun r => length (f r) <= 1) rs ->
  map (fun r => explode_cell (Lst (f r))) rs
  = map (fun r => [first_or_nan (f r)]) rs.
Proof.
  intros H. apply (map_ext_Forall_in (fun r => length (f r) <= 1)); [assumption|].
  intros r Hr. destruct (f r) as [|x [|y l]]; simpl in *; [reflexivity | reflexivity | lia].
Qed.

Lemma zip_groups_spread (label : nat) (a b c e : cell) (xs : list string) :
  zip_groups label (length xs)
             [repeat a (length xs); repeat b (length xs); repeat c (length xs);
              map Str xs; repeat e (length xs)]
  = map (fun x => (label, [a; b; c; Str x; e])) xs.
Proof.
  induction xs as [|x xs IH]; simpl; [reflexivity|]. now rewrite IH.
Qed.

Lemma assemble_spread (rs : list info) :
  forall label,
    assemble label (map (fun r => length (api r)) rs)
             [ map (fun r => repeat (Str (re3data_id r)) (length (api r))) rs;
               map (fun r => repeat (Str (name r)) (length (api r))) rs;
               map (fun r => repeat (first_or_nan (url r)) (length (api r))) rs;
               map (fun r => map Str (api r)) rs;
               map (fun r => repeat (first_or_nan (api_type r)) (length (api r))) rs ]
    = spread_table label rs.
Proof.
  induction rs as [|r rs IH]; intros label; simpl; [reflexivity|].
  rewrite IH. f_equal. apply zip_groups_spread.
Qed.

Lemma explode_spread (rs : list info) :
  Forall spreadable rs ->
  exists df, explode rs = Ok df /\ rows df = spread_table 0 rs.
Proof.
  intros Hs. destruct rs as [|r0 rs0]; [eexists; split; reflexivity|].
  rewrite explode_cons. cbv zeta. set (rs := r0 :: rs0) in *.
  assert (Hw : map widest rs = map (fun r => length (api r)) rs).
  { apply (map_ext_Forall_in spreadable); [assumption|].
    intros r (H1 & H2 & H3). unfold widest, cell_count. lia. }
  assert (Hid : forall c : info -> cell,
             map (fun r => repeat (c r) (widest r)) rs
             = map (fun r => repeat (c r) (length (api r))) rs).
  { intros c. apply (map_ext_Forall_in spreadable); [assumption|].
    intros r (H1 & H2 & H3). unfold widest, cell_count. f_equal. lia. }
  rewrite Hw, !Hid.
  rewrite (explode_short_column url), (explode_short_column api_type);
    [| eapply Forall_impl; [|exact Hs]; intros r (H1 & H2 & H3); assumption
     | eapply Forall_impl; [|exact Hs]; intros r (H1 & H2 & H3); assumption ].
  rewrite !reindex_singletons. cbn [bind].
  rewrite (reindex_same _ (map (fun r => explode_cell (Lst (api r))) rs)).
  2:{ rewrite counts_of_list_column.
      apply (map_ext_Forall_in spreadable); [assumption|].
      intros r (H1 & H2 & H3). unfold cell_count. lia. }
  cbn [bind]. eexists. split; [reflexivity|]. cbn [rows].
  replace (map (fun r => explode_cell (Lst (api r))) rs)
    with (map (fun r => map Str (api r)) rs).
  - apply assemble_spread.
  - apply (map_ext_Forall_in spreadable); [assumption|].
    intros r (H1 & H2 & H3). destruct (api r); simpl in *; [lia | reflexivity].
Qed.
End Spread.

(** X6.  In a frame whose records all have at least one api, at most one
    api type and at most one url, the explosion succeeds and the single
    api type of a record (a missing value when it has none) is repeated
    on the row of each of its apis: a shorter api_type column is spread,
    not padded. *)
Theorem Py03_single_api_type_is_repeated
        (rs : list Py03.info) (Hspreadable : Forall spreadable rs) :
  exists df, Py03.explode rs = Ok df /\ Pandas.rows df = spread_table 0 rs.
Proof. exact (explode_spread rs Hspreadable). Qed.

Lemma Py03_single_api_type_is_repeated_witness :
  exists df,
    Py03.explode
      [ {| Py03.re3data_id := "r3d100000010"; Py03.name := "R10";
           Py03.url := ["https://r10.example.org/"];
           Py03.api := ["a"; "b"; "c"];
           Py03.api_type := ["REST"] |} ] = Ok df /\
    Pandas.rows df
    = [ (0, [ Pandas.Str "r3d100000010"; Pandas.Str "R10";
              Pandas.Str "https://r10.example.org/";
              Pandas.Str "a"; Pandas.Str "REST" ]);
        (0, [ Pandas.Str "r3d100000010"; Pandas.Str "R10";
              Pandas.Str "https://r10.example.org/";
              Pandas.Str "b"; Pandas.Str "REST" ]);
        (0, [ Pandas.Str "r3d100000010"; Pandas.Str "R10";
              Pandas.Str "https://r10.example.org/";
              Pandas.Str "c"; Pandas.Str "REST" ]) ].
Proof.
  apply (Py03_single_api_type_is_repeated
           [ {| Py03.re3data_id := "r3d100000010"; Py03.name := "R10";
                Py03.url := ["https://r10.example.org/"];
                Py03.api := ["a"; "b"; "c"];
                Py03.api_type := ["REST"] |} ]).
  repeat constructor.
Defined.

(** ** Sorting the frame *)

Lemma map_nth_seq {A} (l : list A) (d : A) :
  map (fun j => nth j l d) (seq 0 (length l)) = l.
Proof.
  induction l as [|a l IH]; [reflexivity|].
  cbn [length seq map nth]. f_equal.
  rewrite <- seq_shift, map_map. exact IH.
Qed.

(** With a sorting permutation, [sort_values] returns the same rows, each
    with its label, in the order of their keys. *)
Lemma sort_values_sorted (argsort : list Pandas.cell -> list nat)
      (df : Pandas.DataFrame) (name : string) (p : nat) :
  Pandas.loc (Pandas.columns df) name = Ok p ->
  is_argsort (map (Pandas.at_pos p) (Pandas.rows df))
             (argsort (map (Pandas.at_pos p) (Pandas.rows df))) ->
  exists df',
    Pandas.sort_values argsort df name = Ok df' /\
    Pandas.columns df' = Pandas.columns df /\
    Permutation (Pandas.rows df) (Pandas.rows df') /\
    StronglySorted key_le (map (Pandas.at_pos p) (Pandas.rows df')).
Proof.
  intros Hp [Hperm Hsorted]. unfold Pandas.sort_values. rewrite Hp. cbn [bind].
  eexists. split; [reflexivity|]. cbn [Pandas.columns Pandas.rows].
  split; [reflexivity|]. split.
  - rewrite length_map in Hperm.
    rewrite <- (map_nth_seq (Pandas.rows df) (0, [])) at 1.
    apply Permutation_sym. apply Permutation_map. exact Hperm.
  - rewrite map_map.
    assert (Hd : Pandas.at_pos p (0, []) = Pandas.NaN)
      by (unfold Pandas.at_pos; destruct p; reflexivity).
    rewrite (map_ext _ (fun j => nth j (map (Pandas.at_pos p) (Pandas.rows df)) Pandas.NaN));
      [exact Hsorted|].
    intros j. rewrite <- Hd. symmetry. apply map_nth.
Qed.

(** ** From the listing to the frame *)

Lemma Py03_repository_info_by_results
      (w : world) (argsort : list Pandas.cell -> list nat)
      (urls : list string) (rs : list Py03.info) :
  Py03.results w urls = Ok rs ->
  Py03.repository_info w argsort urls
  = match rs with
    | [] => Raise KeyError
    | _ => bind (Py03.explode rs)
                (fun df => Pandas.sort_values argsort df "re3data_id")
    end.
Proof.
  intros Hrs. unfold Py03.repository_info. rewrite Hrs. cbn [bind].
  destruct rs as [|r0 rs0]; [reflexivity|].
  destruct (Py03.explode (r0 :: rs0)) as [df|e] eqn:E; [|reflexivity].
  destruct (explode_shape _ df E) as (_ & _ & Hcols).
  cbn [bind]. unfold Pandas.astype_category.
  rewrite Hcols by discriminate. reflexivity.
Qed.

(** X7.  Once the loop of use case 3 has ended, steps 4 and 5 depend on
    its results only.  When no repository with an api was met, the frame
    has no column and the category conversion raises KeyError.
    Otherwise a ValueError of the explosion is the outcome of the run;
    and when the explosion gives a frame, and [argsort] returns a sorting
    permutation of its identifiers, the run returns the rows of that
    frame, each under its label, reordered so that the identifiers never
    go down. *)
Theorem Py03_no_api_at_all_raises_KeyError
        (w : world) (argsort : list Pandas.cell -> list nat)
        (urls : list string) (rs : list Py03.info)
        (Hresults : Py03.results w urls = Ok rs) :
  (rs = [] -> Py03.repository_info w argsort urls = Raise KeyError)
  /\ (rs <> [] ->
      forall e, Py03.explode rs = Raise e ->
                Py03.repository_info w argsort urls = Raise e)
  /\ (rs <> [] ->
      forall df,
        Py03.explode rs = Ok df ->
        is_argsort (map (Pandas.at_pos 0) (Pandas.rows df))
                   (argsort (map (Pandas.at_pos 0) (Pandas.rows df))) ->
        exists df',
          Py03.repository_info w argsort urls = Ok df' /\
          Pandas.columns df' = Pandas.columns df /\
          Permutation (Pandas.rows df) (Pandas.rows df') /\
          StronglySorted key_le (map (Pandas.at_pos 0) (Pandas.rows df'))).
Proof.
  rewrite (Py03_repository_info_by_results w argsort urls rs Hresults).
  split; [intros ->; reflexivity|].
  split.
  - intros Hne e He. destruct rs; [congruence|]. now rewrite He.
  - intros Hne df Hdf Hargsort. destruct rs as [|r0 rs0]; [congruence|].
    rewrite Hdf. cbn [bind].
    destruct (explode_shape _ df Hdf) as (_ & _ & Hcols).
    apply sort_values_sorted; [|assumption].
    rewrite Hcols by discriminate. reflexivity.
Qed.

Lemma Py03_no_api_at_all_raises_KeyError_witness :
  Py03.repository_info (world_of site_up) stable_argsort ["R4"] = Raise KeyError
  /\ exists df',
      Py03.repository_info (world_of site_registry) stable_argsort
                           ["R8"; "R4"; "R2"] = Ok df' /\
      map (Pandas.at_pos 0) (Pandas.rows df')
      = [ Pandas.Str "r3d100000002"; Pandas.Str "r3d100000002";
          Pandas.Str "r3d100000008" ].
Proof.
  split.
  - exact (proj1 (Py03_no_api_at_all_raises_KeyError
                    (world_of site_up) stable_argsort ["R4"] [] eq_refl) eq_refl).
  - destruct (Py03_no_api_at_all_raises_KeyError
                (world_of site_registry) stable_argsort
                ["R8"; "R4"; "R2"] _ eq_refl) as (_ & _ & H).
    destruct (H ltac:(discriminate) _ eq_refl) as (df' & Hdf' & _).
    + split; vm_compute.
      * apply Permutation_sym. exact (Permutation_cons_app [1; 2] [] 0 (Permutation_refl _)).
      * repeat constructor.
    + exists df'. split; [exact Hdf'|].
      vm_compute in Hdf'. injection Hdf' as <-. reflexivity.
Defined.

(** X8.  When the listing of use case 3 holds no link, the run from the
    listing on raises KeyError instead of giving an empty frame. *)
Theorem Py03_empty_listing_raises_KeyError
        (w : world) (tree : document)
        (Hlisting : fetch w Py03Run.URL = Ok tree)
        (Hempty : xpath tree "//@href" = []) :
  forall argsort, Py03Run.main w argsort = Raise KeyError.
Proof.
  intros argsort.
  unfold Py03Run.main, Py03Run.urls. rewrite Hlisting. cbn [bind].
  rewrite Hempty. reflexivity.
Qed.

Lemma Py03_empty_listing_raises_KeyError_witness :
  Py03Run.main (world_of site_empty) stable_argsort = Raise KeyError.
Proof.
  exact (Py03_empty_listing_raises_KeyError
           (world_of site_empty) doc_empty_listing eq_refl eq_refl stable_argsort).
Defined.

(** ** The number of repositories in the title of the plot *)

Section Blocks.
Context {A : Type}.
Variable eq_dec : forall x y : A, {x = y} + {x <> y}.

(** For [unique], a value repeated in a row counts like the value
    once. *)
Lemma keep_first_repeat (seen : list A) (x : A) (n : nat) (rest : list A) :
  keep_first eq_dec (fun v => v) seen (repeat x (S n) ++ rest)
  = keep_first eq_dec (fun v => v) seen (x :: rest).
Proof.
  revert seen; induction n as [|n IH]; intros seen; [reflexivity|].
  change (repeat x (S (S n)) ++ rest) with (x :: (repeat x (S n) ++ rest)).
  cbn [keep_first]. destruct (in_dec eq_dec x seen) as [Hin|Hout].
  - rewrite IH. cbn [keep_first].
    destruct (in_dec eq_dec x seen); [reflexivity | contradiction].
  - rewrite IH. cbn [keep_first].
    destruct (in_dec eq_dec x (x :: seen)) as [_|Hno]; [reflexivity|].
    elim Hno. now left.
Qed.

Lemma keep_first_blocks {B} (v : B -> A) (n : B -> nat) (l : list B) :
  (forall b, In b l -> 1 <= n b) ->
  forall seen,
    keep_first eq_dec (fun v => v) seen (concat (map (fun b => repeat (v b) (n b)) l))
    = keep_first eq_dec (fun v => v) seen (map v l).
Proof.
  induction l as [|b l IH]; intros Hn seen; [reflexivity|].
  cbn [map concat].
  destruct (n b) as [|m] eqn:E; [specialize (Hn b (or_introl eq_refl)); lia|].
  rewrite keep_first_repeat. cbn [keep_first].
  destruct (in_dec eq_dec (v b) seen); rewrite IH; auto;
    intros b' Hb'; apply Hn; now right.
Qed.
End Blocks.

Section FirstColumn.
Import Pandas.

Lemma zip_groups_first_column (label : nat) (g : list cell) (gs : list (list cell)) :
  map (at_pos 0) (zip_groups label (length g) (g :: gs)) = g.
Proof.
  revert gs; induction g as [|x g IH]; intros gs; simpl; [reflexivity|].
  unfold at_pos at 1. simpl. f_equal. apply IH.
Qed.

Lemma assemble_first_column (c1 : list (list cell)) :
  forall label cs,
    map (at_pos 0) (assemble label (counts c1) (c1 :: cs)) = concat c1.
Proof.
  induction c1 as [|g c1 IH]; intros label cs; simpl; [reflexivity|].
  rewrite map_app. f_equal; [apply zip_groups_first_column | apply IH].
Qed.
End FirstColumn.

Lemma widest_positive (r : Py03.info) : 1 <= widest r.
Proof. unfold widest, cell_count. lia. Qed.

(** X9.  The number of repositories in the title of the plot, counted on
    the exploded frame, is the number of distinct identifiers among the
    results of the loop: a repository counts once however many rows it
    was exploded into. *)
Theorem Py03_num_repositories_counts_each_once
        (rs : list Py03.info) (df : Pandas.DataFrame)
        (Hsome : rs <> [])
        (Hexplode : Py03.explode rs = Ok df) :
  Py03Run.num_repositories df
  = Ok (length (Py03Run.Series_unique
                  (map (fun r => Pandas.Str (Py03.re3data_id r)) rs))).
Proof.
  destruct rs as [|r0 rs0]; [congruence|]. clear Hsome.
  rewrite explode_cons in Hexplode. cbv zeta in Hexplode.
  set (rs := r0 :: rs0) in *.
  destruct (Pandas.reindex _ _) as [cu|] in Hexplode;
    [cbn [bind] in Hexplode | discriminate].
  destruct (Pandas.reindex _ _) as [ca|] in Hexplode;
    [cbn [bind] in Hexplode | discriminate].
  destruct (Pandas.reindex _ _) as [ct|] in Hexplode;
    [cbn [bind] in Hexplode | discriminate].
  apply Ok_inj in Hexplode. subst df.
  unfold Py03Run.num_repositories, Py03Run.getitem. cbn [Pandas.columns Pandas.rows].
  change (Pandas.loc ["re3data_id"; "name"; "url"; "api"; "api_type"] "re3data_id")
    with (@Ok nat 0).
  cbn [bind]. f_equal. f_equal.
  set (ids := map (fun r => repeat (Pandas.Str (Py03.re3data_id r)) (widest r)) rs).
  replace (map widest rs) with (Pandas.counts ids).
  - rewrite assemble_first_column. unfold ids, Py03Run.Series_unique.
    apply keep_first_blocks. intros r _. apply widest_positive.
  - unfold ids, Pandas.counts. rewrite map_map. apply map_ext.
    intros r. apply repeat_length.
Qed.

Lemma Py03_num_repositories_counts_each_once_witness :
  Py03Run.num_repositories frame_same_type_twice = Ok 1.
Proof.
  apply (Py03_num_repositories_counts_each_once
           [ {| Py03.re3data_id := "r3d100000009"; Py03.name := "R9";
                Py03.url := ["https://r9.example.org/"];
                Py03.api := ["https://r9.example.org/v1"; "https://r9.example.org/v2"];
                Py03.api_type := ["REST"; "REST"] |} ]
           frame_same_type_twice).
  - discriminate.
  - reflexivity.
Defined.

(** ** Use case 3 from the references to the frame *)

Lemma Py03_results_of_documents (w : world) (urls : list string) (ds : list document) :
  Forall2 (fun url d => fetch w url = Ok d) urls ds ->
  Forall (fun d => xpath d "//re3data.orgidentifier/text()" <> []
                   /\ xpath d "//repositoryname/text()" <> []) ds ->
  exists infos,
    Py03.results w urls = Ok infos /\
    mapM Py03.extract_repository_info (filter has_api ds) = Ok infos.
Proof.
  intros Hfetch Hdocs. rewrite Py03_loop_mapM.
  induction Hfetch as [|url d urls ds Hd _ IH]; [exists []; split; reflexivity|].
  inversion Hdocs as [|? ? (Hid & Hnm) Hrest]; subst.
  destruct (IH Hrest) as (infos & Hinfos & Hextract).
  destruct (xpath d "//re3data.orgidentifier/text()") as [|id ids] eqn:Eid;
    [now elim Hid|].
  destruct (xpath d "//repositoryname/text()") as [|nm nms] eqn:Enm;
    [now elim Hnm|].
  pose proof (extract_present d id nm ids nms Eid Enm) as He.
  cbn [mapM]. unfold Py03_record at 1. rewrite Hd. cbn [bind]. rewrite He.
  cbn [bind Py03.api].
  destruct (mapM (Py03_record w) urls) as [bs|e]; [|discriminate].
  cbn [bind] in *. apply Ok_inj in Hinfos. subst infos.
  cbn [filter]. unfold has_api at 1.
  destruct (0 <? length (xpath d "//api/text()"))%nat.
  - eexists. split; [reflexivity|]. cbn [mapM concat app]. rewrite He, Hextract.
    reflexivity.
  - eexists. split; [reflexivity|]. exact Hextract.
Qed.

Lemma mapM_length {A B} (f : A -> result B) (xs : list A) (ys : list B) :
  mapM f xs = Ok ys -> length ys = length xs.
Proof.
  intros H. apply mapM_Ok_iff in H.
  induction H; simpl; congruence.
Qed.

(** X10.  When every detail reference is fetched and parsed, every
    document has an identifier and a name, every document with an api
    has at most one url and as many api types as apis, and [argsort]
    returns a sorting permutation of the identifiers, steps 4 and 5 of
    use case 3 give a frame of the documents with an api only.  Its rows
    are, in another order, the rows of these documents: for each of them
    one row per api paired with the api type at the same position, under
    the label of its position among the documents that were kept.  They
    come in the order of their identifiers. *)
Theorem Py03_frame_of_regular_documents
        (w : world) (argsort : list Pandas.cell -> list nat)
        (urls : list string) (ds : list document)
        (Hfetch : Forall2 (fun url d => fetch w url = Ok d) urls ds)
        (Hrequired :
           Forall (fun d => xpath d "//re3data.orgidentifier/text()" <> []
                            /\ xpath d "//repositoryname/text()" <> []) ds)
        (Hregular : Forall (fun d => has_api d = true -> regular_document d) ds)
        (Hsome : filter has_api ds <> [])
        (Hargsort :
           is_argsort
             (map (Pandas.at_pos 0) (document_table 0 (filter has_api ds)))
             (argsort (map (Pandas.at_pos 0) (document_table 0 (filter has_api ds))))) :
  exists df,
    Py03.repository_info w argsort urls = Ok df /\
    Pandas.columns df = ["re3data_id"; "name"; "url"; "api"; "api_type"] /\
    Permutation (document_table 0 (filter has_api ds)) (Pandas.rows df) /\
    StronglySorted key_le (map (Pandas.at_pos 0) (Pandas.rows df)).
Proof.
  destruct (Py03_results_of_documents w urls ds Hfetch Hrequired)
    as (infos & Hresults & Hextract).
  assert (Hkept : Forall regular_document (filter has_api ds)).
  { apply Forall_forall. intros d Hd. apply filter_In in Hd as [Hd Hapi].
    rewrite Forall_forall in Hregular. now apply Hregular. }
  destruct (extract_regular _ Hkept) as (infos' & Hextract' & Hreg & Htable).
  rewrite Hextract in Hextract'. apply Ok_inj in Hextract'. subst infos'.
  destruct (explode_regular infos Hreg) as (df0 & Hdf0 & Hrows).
  assert (Hne : infos <> []).
  { intros ->. apply mapM_length in Hextract.
    destruct (filter has_api ds); [congruence | discriminate]. }
  rewrite (Py03_repository_info_by_results w argsort urls infos Hresults).
  destruct infos as [|i0 infos0]; [congruence|].
  rewrite Hdf0. cbn [bind].
  destruct (explode_shape _ df0 Hdf0) as (_ & _ & Hcols).
  specialize (Hcols ltac:(discriminate)).
  rewrite <- Htable, <- Hrows in Hargsort |- *.
  destruct (sort_values_sorted argsort df0 "re3data_id" 0) as (df & Hdf & Hc & Hp & Hs).
  - now rewrite Hcols.
  - exact Hargsort.
  - exists df. rewrite Hc, Hcols. auto.
Qed.

Lemma Py03_frame_of_regular_documents_witness :
  exists df,
    Py03.repository_info (world_of site_registry) stable_argsort
                         ["R8"; "R4"; "R2"] = Ok df /\
    Pandas.columns df = ["re3data_id"; "name"; "url"; "api"; "api_type"] /\
    Permutation (document_table 0 [doc_one_api; doc_scenario_A2]) (Pandas.rows df) /\
    StronglySorted key_le (map (Pandas.at_pos 0) (Pandas.rows df)).
Proof.
  apply (Py03_frame_of_regular_documents
           (world_of site_registry) stable_argsort ["R8"; "R4"; "R2"]
           [doc_one_api; doc_no_api; doc_scenario_A2]).
  - repeat constructor.
  - repeat constructor; discriminate.
  - constructor; [intros _; repeat split; simpl; try discriminate; lia|].
    constructor; [intros H; discriminate H|].
    constructor; [|constructor].
    intros _. repeat split; simpl; try discriminate; lia.
  - discriminate.
  - split; vm_compute.
    + apply Permutation_sym.
      exact (Permutation_cons_app [1; 2] [] 0 (Permutation_refl _)).
    + repeat constructor.
Defined.

(** ** Counting once per repository *)

(** X11.  After the deduplication on (re3data_id, field), the number of
    rows with a given value of [field] is the number of distinct
    identifiers that have this value in the frame: in the plot of use
    case 3 the bar of an api type is as high as the number of repositories
    that offer it. *)
Theorem Py03_bar_counts_repositories
        (df df' : Pandas.DataFrame) (field : string)
        (Hdedup : Pandas.drop_duplicates df ["re3data_id"; field] = Ok df') :
  forall p q t,
    Pandas.loc (Pandas.columns df) "re3data_id" = Ok p ->
    Pandas.loc (Pandas.columns df) field = Ok q ->
    length (rows_with q t (Pandas.rows df'))
    = distinct_values p (rows_with q t (Pandas.rows df)).
Proof.
  unfold Pandas.drop_duplicates in Hdedup. simpl in Hdedup.
  destruct (Pandas.loc (Pandas.columns df) "re3data_id") as [p0|] eqn:Ep;
    [simpl in Hdedup | discriminate].
  destruct (Pandas.loc (Pandas.columns df) field) as [q0|] eqn:Eq;
    [simpl in Hdedup | discriminate].
  apply Ok_inj in Hdedup. subst df'. simpl.
  intros p q t [= <-] [= <-].
  set (key := Pandas.key_of [p0; q0]).
  set (kept := keep_first (list_eq_dec Pandas.cell_eq_dec) key [] (Pandas.rows df)).
  unfold distinct_values.
  rewrite <- (length_map (Pandas.at_pos p0) (rows_with q0 t kept)).
  apply Nat.le_antisymm; apply NoDup_incl_length.
  - apply (NoDup_map_finer key).
    + apply NoDup_map_filter. apply keep_first_NoDup.
    + intros x y Hx Hy Hxy.
      apply rows_with_In in Hx as [_ Hx]. apply rows_with_In in Hy as [_ Hy].
      unfold key, Pandas.key_of. simpl. now rewrite Hx, Hy, Hxy.
  - intros v Hv. apply in_map_iff in Hv as (r & <- & Hr).
    apply rows_with_In in Hr as [Hr Ht].
    apply keep_first_In in Hr as [Hr _].
    apply nodup_In. apply in_map. apply rows_with_In. auto.
  - apply NoDup_nodup.
  - intros v Hv. apply nodup_In in Hv. apply in_map_iff in Hv as (r & <- & Hr).
    apply rows_with_In in Hr as [Hr Ht].
    destruct (keep_first_complete (list_eq_dec Pandas.cell_eq_dec) key []
                                  (Pandas.rows df) r Hr) as (y & Hy & Hkey);
      [intros []|].
    unfold key, Pandas.key_of in Hkey. simpl in Hkey.
    injection Hkey as Hp Hq.
    rewrite <- Hp. apply in_map. apply rows_with_In. split; [exact Hy | congruence].
Qed.

Lemma Py03_bar_counts_repositories_witness :
  length (rows_with 4 (Pandas.Str "REST") (Pandas.rows frame_one_type))
  = distinct_values 0 (rows_with 4 (Pandas.Str "REST")
                                 (Pandas.rows frame_same_type_twice)).
Proof.
  exact (Py03_bar_counts_repositories
           frame_same_type_twice frame_one_type "api_type" eq_refl
           0 4 (Pandas.Str "REST") eq_refl eq_refl).
Defined.


(** ** Use case 1, R: fields that do not match exactly once *)

(** X13.  In use case 1 (R) a document with at least one identifier
    whose four fields do not have the same number of matches, for
    instance a repository without description, stops the whole run:
    [rbind] refuses the list, nothing catches the condition, and the
    references after it are not visited. *)
Theorem R01_unequal_match_counts_stop_the_run
        (w : world) (pre post : list string) (url : string) (d : document)
        (Hpre : Forall (fun u => exists b, R01_rows w u = Ok b) pre)
        (Hfetch : fetch w url = Ok d)
        (Hid : xpath d "//r3d:re3data.orgIdentifier" <> [])
        (Hunequal :
           length (xpath d "//r3d:repositoryName")
           <> length (xpath d "//r3d:re3data.orgIdentifier")
           \/ length (xpath d "//r3d:repositoryURL")
              <> length (xpath d "//r3d:re3data.orgIdentifier")
           \/ length (xpath d "//r3d:description")
              <> length (xpath d "//r3d:re3data.orgIdentifier")) :
  R01.repository_info w (pre ++ url :: post) = Raise RbindError.
Proof.
  rewrite R01_loop_mapM.
  rewrite (mapM_first_failure (R01_rows w) pre post url RbindError Hpre); [reflexivity|].
  unfold R01_rows. rewrite Hfetch. cbn [bind].
  unfold R01.new_rows, R01.extract_repository_info.
  cbn [R01.re3data_ID R01.repositoryName R01.repositoryUrl R01.description].
  destruct (xpath d "//r3d:re3data.orgIdentifier") as [|i ids]; [now elim Hid|].
  cbv iota.
  destruct Hunequal as [H|[H|H]]; apply Nat.eqb_neq in H; rewrite H;
    rewrite ?andb_false_r; reflexivity.
Qed.

Lemma R01_unequal_match_counts_stop_the_run_witness :
  R01.repository_info (world_of site_registry) ["R1"; "R11"; "R1"] = Raise RbindError.
Proof.
  apply (R01_unequal_match_counts_stop_the_run
           (world_of site_registry) ["R1"] ["R1"] "R11" doc_no_description).
  - constructor; [eexists; reflexivity | constructor].
  - reflexivity.
  - discriminate.
  - right. right. discriminate.
Defined.

(** X21.  In both R notebooks a document without identifier is passed
    over in silence, whatever its other fields hold: [rbind] leaves out a
    list whose first variable is empty, so the run goes on and ends as
    the run without that reference does. *)
Theorem R_document_without_identifier_is_skipped
        (w : world) (pre post : list string) (url : string) (d : document)
        (Hfetch : fetch w url = Ok d)
        (Hnone : xpath d "//r3d:re3data.orgIdentifier" = []) :
  R01.repository_info w (pre ++ url :: post) = R01.repository_info w (pre ++ post)
  /\ R02.repository_info w (pre ++ url :: post) = R02.repository_info w (pre ++ post).
Proof.
  split.
  - rewrite !R01_loop_mapM, !mapM_app. cbn [mapM].
    assert (H : R01_rows w url = Ok []).
    { unfold R01_rows. rewrite Hfetch. cbn [bind].
      unfold R01.new_rows, R01.extract_repository_info. cbn [R01.re3data_ID].
      now rewrite Hnone. }
    rewrite H. cbn [bind].
    destruct (mapM (R01_rows w) pre) as [a|e]; [|reflexivity].
    destruct (mapM (R01_rows w) post) as [b|e]; [|reflexivity].
    cbn [bind]. now rewrite !concat_app.
  - rewrite !R02_table_by_document, !mapM_app. cbn [mapM].
    assert (H : bind (fetch w url) R02_document_rows = Ok []).
    { rewrite Hfetch. cbn [bind].
      unfold R02_document_rows, R02.rbind, R02.extract_repository_info.
      cbn [R02.l_re3data_ID]. now rewrite Hnone. }
    rewrite H. cbn [bind].
    destruct (mapM _ pre) as [a|e]; [|reflexivity].
    destruct (mapM _ post) as [b|e]; [|reflexivity].
    cbn [bind]. now rewrite !concat_app.
Qed.

Lemma R_document_without_identifier_is_skipped_witness :
  R01.repository_info (world_of site_registry) ["R1"; "R0"; "R1"]
  = R01.repository_info (world_of site_registry) ["R1"; "R1"]
  /\ R02.repository_info
       (world_of site_registry)
       ["https://www.re3data.org/api/v1/repository/r3d100000003"; "R0";
        "https://www.re3data.org/api/v1/repository/r3d100000007"]
     = R02.repository_info
         (world_of site_registry)
         ["https://www.re3data.org/api/v1/repository/r3d100000003";
          "https://www.re3data.org/api/v1/repository/r3d100000007"]
  /\ exists t, R01.repository_info (world_of site_registry) ["R1"; "R0"; "R1"] = Ok t
               /\ length t = 2.
Proof.
  split; [|split].
  - exact (proj1 (R_document_without_identifier_is_skipped
                    (world_of site_registry) ["R1"] ["R1"] "R0" doc_name_only
                    eq_refl eq_refl)).
  - exact (proj2 (R_document_without_identifier_is_skipped
                    (world_of site_registry)
                    ["https://www.re3data.org/api/v1/repository/r3d100000003"]
                    ["https://www.re3data.org/api/v1/repository/r3d100000007"]
                    "R0" doc_name_only eq_refl eq_refl)).
  - eexists. split; reflexivity.
Defined.

(** ** Use case 2, R: from the references to the table *)

Lemma rbind_exn (df : list R02.row) (l : R02.results_list) (e : exn) :
  R02.rbind df l = Raise e -> e = RbindError /\ length (R02.l_re3data_ID l) <> 1.
Proof.
  unfold R02.rbind. destruct (R02.l_re3data_ID l) as [|i [|i' ids]];
    try discriminate; intros [= <-]; split; simpl; congruence.
Qed.

(** X14.  The run of use case 2 ends with an error only when a reference
    cannot be fetched or parsed, with that error, or when a fetched
    document does not have exactly one identifier, with the error of
    [rbind]. *)
Theorem R02_error_origin
        (w : world) (URLs : list string) (e : exn)
        (Hrun : R02.repository_info w URLs = Raise e) :
  exists url,
    In url URLs /\
    (fetch w url = Raise e
     \/ exists d,
        fetch w url = Ok d /\ e = RbindError /\
        length (xpath d "//r3d:re3data.orgIdentifier") <> 1).
Proof.
  rewrite R02_table_by_document in Hrun.
  destruct (mapM _ URLs) as [bs|e0] eqn:E; [discriminate|].
  simpl in Hrun. injection Hrun as ->.
  apply mapM_Raise_inv in E as (url & Hin & Hurl).
  exists url. split; [assumption|].
  destruct (fetch w url) as [d|e1] eqn:Ef; cbn [bind] in Hurl;
    [right | left; injection Hurl as ->; reflexivity].
  exists d. split; [reflexivity|].
  unfold R02_document_rows in Hurl.
  destruct (R02.rbind [] (R02.extract_repository_info d)) as [df|e1] eqn:Er;
    [discriminate|].
  cbn [bind] in Hurl. injection Hurl as ->.
  now apply rbind_exn in Er.
Qed.

Lemma R02_error_origin_witness :
  exists url,
    In url ["R0"; "R13"] /\
    (fetch (world_of site_registry) url = Raise RbindError
     \/ exists d,
        fetch (world_of site_registry) url = Ok d /\ RbindError = RbindError /\
        length (xpath d "//r3d:re3data.orgIdentifier") <> 1).
Proof.
  exact (R02_error_origin (world_of site_registry) ["R0"; "R13"] RbindError eq_refl).
Defined.

(** X15.  The table of use case 2 is returned exactly when every
    reference yields its rows, and it is then the concatenation of these
    rows in the order of the references: the processing of step 6 works
    document by document. *)
Theorem R02_rows_in_reference_order (w : world) (URLs : list string) :
  forall t,
    R02.repository_info w URLs = Ok t
    <-> exists batches,
        Forall2 (fun url b => bind (fetch w url) R02_document_rows = Ok b)
                URLs batches
        /\ t = concat batches.
Proof.
  intros t. rewrite R02_table_by_document. split.
  - intros H. apply bind_Ok_inv in H as (bs & Hbs & H). apply Ok_inj in H.
    exists bs. split; [now apply mapM_Ok_iff | congruence].
  - intros (bs & Hbs & ->). apply mapM_Ok_iff in Hbs. now rewrite Hbs.
Qed.

(** ** Cutting and joining again *)

Lemma split_from_nonempty (sep s : string) :
  forall skip cur, R.split_from sep skip cur s <> [].
Proof.
  induction s as [|c s IH]; intros skip cur; cbn [R.split_from]; [discriminate|].
  destruct skip; [|apply IH].
  destruct (String.prefix sep (String c s)); [discriminate | apply IH].
Qed.

Lemma prefix_split (sep s : string) :
  String.prefix sep s = true -> exists rest, s = String.append sep rest.
Proof.
  revert s; induction sep as [|a sep IH]; intros s H.
  - exists s. reflexivity.
  - destruct s as [|b s]; simpl in H; [discriminate|].
    destruct (ascii_dec a b) as [->|]; [|discriminate].
    destruct (IH s H) as (rest & ->). exists rest. reflexivity.
Qed.

Lemma concat_cons (sep x : string) (l : list string) :
  l <> [] ->
  String.concat sep (x :: l) = String.append x (String.append sep (String.concat sep l)).
Proof. destruct l; [congruence | reflexivity]. Qed.

Lemma join_split_from (sep : string) :
  sep <> EmptyString ->
  forall n s cur,
    String.length s <= n ->
    String.concat sep (R.split_from sep 0 cur s) = String.append cur s.
Proof.
  intros Hsep. induction n as [|n IH]; intros s cur Hlen.
  - destruct s; simpl in *; [now rewrite append_empty_r | lia].
  - destruct s as [|c s]; [simpl; now rewrite append_empty_r|].
    destruct (String.prefix sep (String c s)) eqn:Ep.
    + destruct (prefix_split _ _ Ep) as (rest & Erest). rewrite Erest.
      rewrite split_at_separator by assumption.
      rewrite concat_cons by apply split_from_nonempty.
      rewrite IH; [reflexivity|].
      apply (f_equal String.length) in Erest. rewrite length_append in Erest.
      destruct sep; [now elim Hsep|]. simpl in *. lia.
    + cbn [R.split_from]. rewrite Ep. rewrite IH by (simpl in Hlen; lia).
      now rewrite append_assoc.
Qed.

(** X16.  What [separate_rows] makes of a row loses nothing of its type
    cell: joining with "_AND_" the type cells of the rows that a row is
    cut into gives the text of its type cell back, whatever that text
    is, and in particular the pieces are in order. *)
Theorem separate_then_paste_is_identity
        (r : R02.row) (s : string) (Htype : R02.type r = R.chr s) :
  R.paste_collapse (map type_text (R02.separate_row r)) "_AND_" = s.
Proof.
  unfold R02.separate_row. rewrite Htype. rewrite map_map.
  unfold type_text. cbn [R02.type]. rewrite map_id.
  unfold R.paste_collapse, R.str_split.
  rewrite (join_split_from "_AND_" ltac:(discriminate)
                           (String.length s) s EmptyString (le_n _)).
  reflexivity.
Qed.

Lemma separate_then_paste_is_identity_witness :
  R.paste_collapse
    (map type_text
         (R02.separate_row {| R02.re3data_ID := R.chr "r3d100000003";
                              R02.type := R.chr "x_AND_AND_y_AND_";
                              R02.certificate := R.lgl false |}))
    "_AND_"
  = "x_AND_AND_y_AND_".
Proof.
  exact (separate_then_paste_is_identity
           {| R02.re3data_ID := R.chr "r3d100000003";
              R02.type := R.chr "x_AND_AND_y_AND_";
              R02.certificate := R.lgl false |}
           "x_AND_AND_y_AND_" eq_refl).
Defined.

(** ** What step 6 makes of a document *)

Lemma some_text_false (l : list string) :
  some_text l = false <-> Forall (fun s => s = EmptyString) l.
Proof.
  unfold some_text. induction l as [|x l IH]; simpl.
  - split; [constructor | reflexivity].
  - destruct (string_dec x "") as [->|Hx]; simpl.
    + rewrite IH. split; [now constructor | now inversion 1].
    + split; [discriminate | inversion 1; contradiction].
Qed.

(** The joined distinct texts are empty exactly when no text is
    non-empty. *)
Lemma joined_empty_iff (l : list string) :
  R.paste_collapse (R.unique l) "_AND_" = EmptyString <-> some_text l = false.
Proof.
  rewrite some_text_false. unfold R.paste_collapse. split.
  - intros H. apply Forall_forall. intros x Hx.
    apply (proj2 (unique_In _ _)) in Hx.
    destruct (R.unique l) as [|u us] eqn:E; [contradiction|].
    apply concat_empty in H; [|discriminate|discriminate].
    rewrite H in Hx. destruct Hx as [<-|[]]. reflexivity.
  - intros H. destruct l as [|x l]; [reflexivity|].
    pose proof (unique_NoDup (x :: l)) as Hnd.
    assert (Hall : forall y, In y (R.unique (x :: l)) -> y = EmptyString).
    { intros y Hy. apply (proj1 (unique_In _ _)) in Hy.
      exact (proj1 (Forall_forall _ _) H y Hy). }
    destruct (R.unique (x :: l)) as [|u [|u' us]]; [reflexivity | |].
    + now rewrite (Hall u (or_introl eq_refl)).
    + inversion Hnd as [|? ? Hu _]; subst. elim Hu. left.
      rewrite (Hall u), (Hall u'); simpl; auto.
Qed.

(** X17.  In the rows that a document (with one identifier) gets in use
    case 2, [certificate] is TRUE exactly when some certificate element of
    the document has a non-empty text, and FALSE otherwise; [type] is
    missing, on a single row, exactly when no type element has a
    non-empty text, and in every other case no row has a missing
    [type]: the filter of step 7 then keeps all the rows of the document,
    and drops the document otherwise. *)
Theorem R02_certificate_and_type_cells
        (d : document) (i : string)
        (Hid : xpath d "//r3d:re3data.orgIdentifier" = [i]) :
  exists rows,
    R02_document_rows d = Ok rows /\
    rows <> [] /\
    Forall (fun r => R02.certificate r
                     = R.lgl (some_text (xpath d "//r3d:certificate"))) rows /\
    (some_text (xpath d "//r3d:type") = false ->
     map R02.type rows = [R.NA] /\ R02Run.filter_type rows = []) /\
    (some_text (xpath d "//r3d:type") = true ->
     R02Run.filter_type rows = rows).
Proof.
  rewrite (R02_rows_by_type_cell d i Hid). cbv zeta.
  eexists. split; [reflexivity|].
  assert (Hcert :
            (if string_dec (R.paste_collapse (R.unique (xpath d "//r3d:certificate")) "_AND_") ""
             then false else true)
            = some_text (xpath d "//r3d:certificate")).
  { destruct (string_dec _ "") as [E|E].
    - symmetry. now apply joined_empty_iff.
    - destruct (some_text (xpath d "//r3d:certificate")) eqn:Es; [reflexivity|].
      elim E. now apply joined_empty_iff. }
  rewrite Hcert.
  destruct (string_dec (R.paste_collapse (R.unique (xpath d "//r3d:type")) "_AND_") "")
    as [E|E].
  - apply joined_empty_iff in E. rewrite E.
    split; [discriminate|]. split; [repeat constructor|].
    split; [intros _; split; reflexivity | discriminate].
  - assert (Et : some_text (xpath d "//r3d:type") = true).
    { destruct (some_text (xpath d "//r3d:type")) eqn:Es; [reflexivity|].
      elim E. now apply joined_empty_iff. }
    rewrite Et. split; [|split; [|split; [discriminate|]]].
    + pose proof (split_from_nonempty "_AND_"
                    (R.paste_collapse (R.unique (xpath d "//r3d:type")) "_AND_")
                    0 EmptyString) as Hne.
      unfold R.str_split. destruct (R.split_from _ _ _ _); [congruence | discriminate].
    + apply Forall_forall. intros r Hr. apply in_map_iff in Hr as (t & <- & _).
      reflexivity.
    + intros _. unfold R02Run.filter_type.
      induction (R.str_split _ _) as [|t ts IH]; [reflexivity|].
      cbn [map filter R02.type R.is_na negb]. f_equal. exact IH.
Qed.

Lemma R02_certificate_and_type_cells_witness :
  exists rows,
    R02_document_rows doc_repeated_type = Ok rows /\
    Forall (fun r => R02.certificate r = R.lgl true) rows /\
    R02Run.filter_type rows = rows.
Proof.
  destruct (R02_certificate_and_type_cells doc_repeated_type "r3d100000006" eq_refl)
    as (rows & Hrows & _ & Hcert & _ & Htype).
  exists rows. split; [exact Hrows|]. split; [exact Hcert | exact (Htype eq_refl)].
Defined.

(** ** The figures of the plot of use case 2 *)

Lemma separate_row_nonempty (r : R02.row) : R02.separate_row r <> [].
Proof.
  unfold R02.separate_row. destruct (R02.type r); try discriminate.
  pose proof (split_from_nonempty "_AND_" s 0 EmptyString) as Hne.
  unfold R.str_split. destruct (R.split_from _ _ _ _); [congruence | discriminate].
Qed.

Lemma separate_row_identifiers (r : R02.row) :
  map R02.re3data_ID (R02.separate_row r)
  = repeat (R02.re3data_ID r) (length (R02.separate_row r)).
Proof.
  unfold R02.separate_row. destruct (R02.type r); try reflexivity.
  rewrite length_map, map_map. cbn [R02.re3data_ID].
  induction (R.str_split s "_AND_") as [|t ts IH]; simpl; congruence.
Qed.

(** X18.  The number of repositories in the title of the plot of use case
    2 is not changed by [separate_rows] nor by the recoding of the
    certificate: counted on the processed table, it is the number of
    distinct identifiers of the table right after [na_if], however many
    types a repository has. *)
Theorem R02_num_repositories_counts_each_once (df : list R02.row) :
  R02Run.num_repositories (R02.process df)
  = R02Run.num_repositories (R02.mutate_all_na_if df).
Proof.
  unfold R02Run.num_repositories, R02Run.n_distinct, R02.process, R02.separate_rows.
  f_equal.
  set (df' := R02.mutate_certificate (R02.mutate_all_na_if df)).
  assert (Hids : map R02.re3data_ID df' = map R02.re3data_ID (R02.mutate_all_na_if df)).
  { unfold df', R02.mutate_certificate. rewrite map_map. reflexivity. }
  rewrite <- Hids.
  assert (Hflat : map R02.re3data_ID (flat_map R02.separate_row df')
                  = concat (map (fun r => repeat (R02.re3data_ID r)
                                                 (length (R02.separate_row r))) df')).
  { clear Hids. induction df' as [|r rs IH]; [reflexivity|].
    cbn [flat_map map concat].
    rewrite map_app, separate_row_identifiers. f_equal. exact IH. }
  rewrite Hflat, <- (map_map R02.re3data_ID (fun v => v)).
  rewrite (keep_first_blocks R02Run.value_eq_dec R02.re3data_ID
                             (fun r => length (R02.separate_row r)) df').
  - now rewrite map_map.
  - intros r _. pose proof (separate_row_nonempty r).
    destruct (R02.separate_row r); simpl; [congruence | lia].
Qed.

(** X19.  In use case 2 the vector of URLs is never empty: for a listing
    without any identifier, [paste] returns the bare address of the
    detail endpoint, which the loop then requests once; otherwise there
    is one URL per identifier, in the order of the listing.  With an
    empty listing the run therefore stands or falls with that one
    request: it stops with the error of the request when it fails, and
    returns a table without rows when the answer holds no identifier. *)
Theorem R02_urls_never_empty
        (w : world) (listing : document)
        (Hlisting : fetch w "http://re3data.org/api/v1/repositories" = Ok listing) :
  (xpath listing "//id" = [] ->
   R02Run.main w
   = R02.repository_info w ["https://www.re3data.org/api/v1/repository/"])
  /\ (xpath listing "//id" <> [] ->
      R02Run.main w
      = R02.repository_info
          w (map (String.append "https://www.re3data.org/api/v1/repository/")
                 (xpath listing "//id")))
  /\ (xpath listing "//id" = [] ->
      forall e,
        fetch w "https://www.re3data.org/api/v1/repository/" = Raise e ->
        R02Run.main w = Raise e)
  /\ (xpath listing "//id" = [] ->
      forall d,
        fetch w "https://www.re3data.org/api/v1/repository/" = Ok d ->
        xpath d "//r3d:re3data.orgIdentifier" = [] ->
        R02Run.main w = Ok []).
Proof.
  unfold R02Run.main, R02Run.URLs, R02Run.re3data_IDs.
  rewrite Hlisting. cbn [bind].
  split; [intros ->; reflexivity|].
  split; [intros Hne; destruct (xpath listing "//id"); [congruence | reflexivity]|].
  split.
  - intros -> e He. cbn [R02Run.paste].
    unfold R02.repository_info, R02.gather. cbn [for_each].
    unfold R02.loop_body at 1. now rewrite He.
  - intros -> d Hd Hnone. cbn [R02Run.paste].
    unfold R02.repository_info, R02.gather. cbn [for_each].
    unfold R02.loop_body at 1. rewrite Hd. cbn [bind].
    unfold R02.rbind, R02.extract_repository_info. cbn [R02.l_re3data_ID].
    rewrite Hnone. reflexivity.
Qed.

Lemma R02_urls_never_empty_witness :
  R02Run.main (world_of site_empty)
  = R02.repository_info (world_of site_empty)
                        ["https://www.re3data.org/api/v1/repository/"]
  /\ R02Run.main (world_of site_empty) = Ok []
  /\ exists t, R02Run.main (world_of site_registry) = Ok t /\ length t = 3.
Proof.
  destruct (R02_urls_never_empty
              (world_of site_empty) doc_empty_listing eq_refl)
    as (Hempty & _ & _ & Hnone).
  split; [exact (Hempty eq_refl)|].
  split; [exact (Hnone eq_refl doc_empty_listing eq_refl eq_refl)|].
  eexists. split; reflexivity.
Defined.

(** ** The pieces that [separate_rows] makes *)

(** What is being read only goes in front of the first piece. *)
Lemma split_from_cur (sep s : string) :
  forall skip cur,
    R.split_from sep skip cur s
    = match R.split_from sep skip EmptyString s with
      | p :: ps => String.append cur p :: ps
      | [] => []
      end.
Proof.
  induction s as [|c s IH]; intros skip cur; cbn [R.split_from].
  - now rewrite append_empty_r.
  - destruct skip as [|k]; [|apply IH].
    destruct (String.prefix sep (String c s)).
    + now rewrite append_empty_r.
    + rewrite (IH 0 (String.append cur (String c EmptyString))).
      rewrite (IH 0 (String.append EmptyString (String c EmptyString))).
      destruct (R.split_from sep 0 EmptyString s) as [|p ps]; [reflexivity|].
      now rewrite append_assoc.
Qed.

(** The first piece is a prefix of the text. *)
Lemma first_piece_is_prefix (sep s p : string) (ps : list string) :
  sep <> EmptyString ->
  R.split_from sep 0 EmptyString s = p :: ps ->
  exists more, s = String.append p more.
Proof.
  intros Hsep E.
  pose proof (join_split_from sep Hsep (String.length s) s EmptyString (le_n _)) as H.
  rewrite E in H. simpl String.append in H.
  destruct ps as [|p' ps'].
  - exists EmptyString. simpl in H. now rewrite append_empty_r.
  - rewrite concat_cons in H by discriminate. eexists. symmetry. exact H.
Qed.

Lemma split_pieces_clean (sep : string) :
  sep <> EmptyString ->
  forall n s,
    String.length s <= n ->
    Forall (fun p => occurs sep p = false) (R.split_from sep 0 EmptyString s).
Proof.
  intros Hsep.
  assert (Hnil : String.prefix sep EmptyString = false)
    by (destruct sep; [now elim Hsep | reflexivity]).
  induction n as [|n IH]; intros s Hlen.
  - destruct s; simpl in Hlen; [|lia]. repeat constructor. exact Hnil.
  - destruct s as [|c s]; [repeat constructor; exact Hnil|].
    destruct (String.prefix sep (String c s)) eqn:Ep.
    + destruct (prefix_split _ _ Ep) as (rest & Erest). rewrite Erest.
      rewrite split_at_separator by assumption.
      constructor; [exact Hnil|]. apply IH.
      apply (f_equal String.length) in Erest. rewrite length_append in Erest.
      destruct sep; [now elim Hsep|]. simpl in *. lia.
    + cbn [R.split_from]. rewrite Ep. rewrite split_from_cur.
      assert (Hs : String.length s <= n) by (simpl in Hlen; lia).
      specialize (IH s Hs).
      destruct (R.split_from sep 0 EmptyString s) as [|p ps] eqn:E; [constructor|].
      inversion IH as [|? ? Hp Hps]; subst.
      constructor; [|assumption].
      destruct (first_piece_is_prefix sep s p ps Hsep E) as (more & Emore).
      change (String.append (String.append EmptyString (String c EmptyString)) p)
        with (String c p).
      cbn [occurs]. rewrite Hp, orb_false_r.
      destruct (String.prefix sep (String c p)) eqn:Ecp; [|reflexivity].
      apply (prefix_mono _ _ more) in Ecp.
      change (String.append (String c p) more) with (String c (String.append p more)) in Ecp.
      rewrite <- Emore in Ecp. congruence.
Qed.

(** X20.  After step 6 of use case 2 no [type] cell of the table contains
    the separator "_AND_": [separate_rows] cuts at every occurrence. *)
Theorem R02_no_separator_left_in_type
        (df : list R02.row) (r : R02.row) (t : string)
        (Hrow : In r (R02.process df))
        (Htype : R02.type r = R.chr t) :
  occurs "_AND_" t = false.
Proof.
  unfold R02.process, R02.separate_rows in Hrow.
  apply in_flat_map in Hrow as (r' & _ & Hr).
  unfold R02.separate_row in Hr. destruct (R02.type r') as [s| |] eqn:E.
  - apply in_map_iff in Hr as (t' & <- & Ht'). cbn [R02.type] in Htype.
    injection Htype as <-.
    assert (Hsep : "_AND_" <> EmptyString) by discriminate.
    pose proof (split_pieces_clean "_AND_" Hsep (String.length s) s (le_n _)) as Hclean.
    rewrite Forall_forall in Hclean. now apply Hclean.
  - destruct Hr as [<-|[]]. congruence.
  - destruct Hr as [<-|[]]. congruence.
Qed.

Lemma R02_no_separator_left_in_type_witness :
  occurs "_AND_" "institutional" = false.
Proof.
  apply (R02_no_separator_left_in_type
           [ {| R02.re3data_ID := R.chr "r3d100000003";
                R02.type := R.chr "institutional_AND_other";
                R02.certificate := R.chr "" |} ]
           {| R02.re3data_ID := R.chr "r3d100000003";
              R02.type := R.chr "institutional";
              R02.certificate := R.lgl false |}
           "institutional").
  - left. reflexivity.
  - reflexivity.
Defined.
